(** * Receipt fixture generators

    A shallow embedding of the five receipt-image scripts

      - [flutter_app/assets/images/generate_test_receipt_fi.py]
      - [flutter_app/assets/scripts/generate_test_receipt_de.py]
      - [flutter_app/assets/scripts/generate_test_receipt_sv.py]
      - [flutter_app/assets/images/generate_test_receipt_v2.py]
      - [flutter_app/assets/images/generate_test_receipt_v3.py]

    Python floats are IEEE binary64 numbers ([spec_float] at precision 53),
    the Pillow image is the canvas together with the drawing calls made on
    it, and every script is a program in a state monad over that image. *)

From Stdlib Require Import ZArith QArith Qabs List String Ascii Bool Lia.
From Stdlib Require Import Sorted RelationClasses.
From Stdlib Require Import Floats.SpecFloat DecimalString.
Import ListNotations.

Local Open Scope Z_scope.

(* ================================================================== *)
(** * Python floats and their formatting *)
(* ================================================================== *)

Module Py.

Definition float := spec_float.

Definition prec : Z := 53.
Definition emax : Z := 1024.

Definition add : float -> float -> float := SFadd prec emax.
Definition mul : float -> float -> float := SFmul prec emax.

(** The binary64 number nearest to the rational [n / d] (ties to even):
    one correctly rounded division of two integers. *)
Definition of_ratio (n : Z) (d : positive) : float :=
  match n with
  | Z0 => S754_zero false
  | Zpos p => SFdiv prec emax (S754_finite false p 0) (S754_finite false d 0)
  | Zneg p => SFdiv prec emax (S754_finite true p 0) (S754_finite false d 0)
  end.

(** A decimal literal of the source, such as [2.50] or [0.14]. *)
Definition lit (q : Q) : float := of_ratio (Qnum q) (Qden q).

(** The exact value of a finite float. *)
Definition to_Q (x : float) : Q :=
  match x with
  | S754_finite s m e =>
      let v := if 0 <=? e then inject_Z (Zpos m * 2 ^ e)
               else Qmake (Zpos m) (Pos.pow 2 (Z.to_pos (- e))) in
      if s then Qopp v else v
  | _ => 0%Q
  end.

Definition is_finite (x : float) : bool :=
  match x with
  | S754_zero _ | S754_finite _ _ _ => true
  | _ => false
  end.

(** [n / d] rounded to the nearest integer, ties to the even one
    ([n >= 0], [d > 0]). *)
Definition round_half_even (n d : Z) : Z :=
  let q := n / d in
  let r := n mod d in
  match 2 * r ?= d with
  | Lt => q
  | Gt => q + 1
  | Eq => if Z.even q then q else q + 1
  end.

(** The magnitude of [x] in hundredths, correctly rounded: the digits
    that [format(x, ".2f")] prints. *)
Definition abs_cents (x : float) : Z :=
  match x with
  | S754_finite _ m e =>
      if 0 <=? e then 100 * Zpos m * 2 ^ e
      else round_half_even (100 * Zpos m) (2 ^ (- e))
  | _ => 0
  end.

Definition sign (x : float) : bool :=
  match x with
  | S754_zero s | S754_infinity s | S754_finite s _ _ => s
  | S754_nan => false
  end.

(** The signed number of cents shown for [x]. *)
Definition cents (x : float) : Z :=
  if sign x then - abs_cents x else abs_cents x.

Definition digits (n : Z) : string :=
  NilZero.string_of_uint (N.to_uint (Z.to_N n)).

Definition two_digits (n : Z) : string :=
  if n <? 10 then ("0" ++ digits n)%string else digits n.

(** [f"{x:.2f}"] *)
Definition format_2f (x : float) : string :=
  match x with
  | S754_nan => "nan"
  | S754_infinity s => if s then "-inf" else "inf"
  | _ =>
      let c := abs_cents x in
      ((if sign x then "-" else "")
         ++ digits (c / 100) ++ "." ++ two_digits (c mod 100))%string
  end.

(** [round(x, 2)]: the float nearest to the two-decimal rendering of [x]. *)
Definition round2 (x : float) : float :=
  match x with
  | S754_finite s _ _ =>
      if cents x =? 0 then S754_zero s else of_ratio (cents x) 100
  | _ => x
  end.

(** An amount of whole cents as the float of its two-decimal literal:
    [of_cents 759] is the float [7.59]; the same for a rate in percent. *)
Definition of_cents (c : Z) : float := of_ratio c 100.

(** [c] is the number of cents nearest to the exact value of [x], with
    no tie: every round-to-nearest rule gives [c]. *)
Definition nearest_cent (x : float) (c : Z) : Prop :=
  (Qabs (inject_Z 100 * to_Q x - inject_Z c) < 1 # 2)%Q.

(** [x] is the binary64 number nearest to the rational [q], ties to
    even: [x] is normal, and [q] is less than half a unit in the last
    place away from it, or exactly half a unit away from an even
    mantissa. *)
Definition denotes (x : float) (q : Q) : Prop :=
  match x with
  | S754_finite _ m e =>
      2 ^ 52 < Zpos m < 2 ^ 53
      /\ -1074 < e < 971
      /\ ((Qabs (to_Q x - q) < Qpower 2 (e - 1))%Q
          \/ ((Qabs (to_Q x - q) == Qpower 2 (e - 1))%Q
              /\ Z.even (Zpos m) = true))
  | _ => False
  end.

End Py.

Declare Scope pyfloat_scope.
Delimit Scope pyfloat_scope with py.
Notation "x + y" := (Py.add x y) : pyfloat_scope.
Notation "x * y" := (Py.mul x y) : pyfloat_scope.

(* ================================================================== *)
(** * Exceptions *)
(* ================================================================== *)

(** A Python exception; the bare [except:] of the scripts catches every
    one of them, so only its presence matters. *)
Variant Exn := Raised (name : string).

Inductive Result (A : Type) :=
| Ok (a : A)
| Raise (e : Exn).
Arguments Ok {A} a.
Arguments Raise {A} e.

Definition rbind {A B} (r : Result A) (k : A -> Result B) : Result B :=
  match r with
  | Ok a => k a
  | Raise e => Raise e
  end.

(** [try: body  except: handler] *)
Definition try_except {A} (body : Result A) (handler : Exn -> Result A)
  : Result A :=
  match body with
  | Ok a => Ok a
  | Raise e => handler e
  end.

(* ================================================================== *)
(** * The drawing surface (Pillow) *)
(* ================================================================== *)

Module PIL.

Definition Color := (Z * Z * Z)%type.

(** A font handle: a scalable font loaded from a file at a size, or the
    built-in default font. *)
Inductive Font :=
| FreeTypeFont (path : string) (size : Z)
| DefaultFont.

(** [ImageFont.truetype(path, size)] depends on the machine the script
    runs on: it returns a handle or raises. *)
Definition FontProvider := string -> Z -> Result Font.

(** [ImageFont.load_default()] *)
Definition load_default : Font := DefaultFont.

(** One call on the [ImageDraw] object. *)
Inductive DrawOp :=
| Text (xy : Z * Z) (text : string) (fill : Color) (font : Font)
| Rectangle (xy : Z * Z * Z * Z) (fill outline : option Color) (width : Z)
| Line (xy : Z * Z * Z * Z) (fill : Color) (width : Z).

(** An image: its canvas and the calls drawn on it, oldest first. *)
Record Image := {
  mode : string;
  size : Z * Z;
  color : Color;
  drawn : list DrawOp
}.

(** [Image.new(mode, size, color)], for a size neither side of which is
    negative; Pillow raises for the others, and no script asks for one. *)
Definition new (mode : string) (size : Z * Z) (color : Color) : Image :=
  {| mode := mode; size := size; color := color; drawn := [] |}.

(** Programs that draw on the image. *)
Definition Draw (A : Type) : Type := Image -> A * Image.

Definition ret {A} (a : A) : Draw A := fun img => (a, img).

Definition bind {A B} (c : Draw A) (k : A -> Draw B) : Draw B :=
  fun img => let (a, img') := c img in k a img'.

Definition emit (op : DrawOp) : Draw unit :=
  fun img =>
    (tt, {| mode := mode img; size := size img; color := color img;
            drawn := drawn img ++ [op] |}).

(** [draw.text(xy, text, fill=, font=)] *)
Definition text (xy : Z * Z) (t : string) (fill : Color) (font : Font)
  : Draw unit :=
  emit (Text xy t fill font).

(** [draw.rectangle(xy, fill=None, outline=None, width=1)] *)
Definition rectangle (xy : Z * Z * Z * Z) (fill outline : option Color)
  (width : Z) : Draw unit :=
  emit (Rectangle xy fill outline width).

(** [draw.line(xy, fill=, width=)] *)
Definition line (xy : Z * Z * Z * Z) (fill : Color) (width : Z)
  : Draw unit :=
  emit (Line xy fill width).

(** ** Pixels

    The rasteriser is the drawing backend's business: [paint op r] is
    the raster [r] after [op] has been drawn over it. *)
Definition Raster := Z -> Z -> Color.

Section Pixels.
Variable paint : DrawOp -> Raster -> Raster.

Definition raster (img : Image) : Raster :=
  fold_left (fun r op => paint op r) (drawn img) (fun _ _ => color img).

Definition in_bounds (img : Image) (x y : Z) : bool :=
  (0 <=? x) && (x <? fst (size img)) && (0 <=? y) && (y <? snd (size img)).

(** [img.getpixel((x, y))]: a negative coordinate counts back from the
    far edge; a position that is then outside the canvas raises. *)
Definition getpixel (img : Image) (x y : Z) : Result Color :=
  let x := if x <? 0 then fst (size img) + x else x in
  let y := if y <? 0 then snd (size img) + y else y in
  if in_bounds img x y then Ok (raster img x y)
  else Raise (Raised "IndexError").
End Pixels.

End PIL.

Notation "x <- c1 ;; c2" := (PIL.bind c1 (fun x => c2))
  (at level 61, c1 at next level, right associativity).
Notation "c1 ;; c2" := (PIL.bind c1 (fun _ => c2))
  (at level 61, right associativity).

(* ================================================================== *)
(** * The prelude shared by the five scripts *)
(* ================================================================== *)

(** Lines 6-35 of every script are the same text, up to the value of
    [HEIGHT]. *)
Module Prelude.
Import PIL.

Definition WIDTH : Z := 400.
Definition BG_COLOR : Color := (255, 255, 255).
Definition TEXT_COLOR : Color := (0, 0, 0).

Definition helvetica : string := "/System/Library/Fonts/Helvetica.ttc".

Record Fonts := {
  font_large : Font;
  font_medium : Font;
  font_small : Font
}.

(** The [try: ... except: ...] block that binds the three fonts. *)
Definition load_fonts (truetype : FontProvider) : Result Fonts :=
  try_except
    (rbind (truetype helvetica 16) (fun l =>
     rbind (truetype helvetica 14) (fun m =>
     rbind (truetype helvetica 12) (fun s =>
     Ok {| font_large := l; font_medium := m; font_small := s |}))))
    (fun _ =>
     Ok {| font_large := load_default;
           font_medium := load_default;
           font_small := load_default |}).

Definition all_default : Fonts :=
  {| font_large := load_default;
     font_medium := load_default;
     font_small := load_default |}.

(** What the [try] block leaves in the three variables. *)
Definition resolved (truetype : FontProvider) : Fonts :=
  match truetype helvetica 16, truetype helvetica 14, truetype helvetica 12 with
  | Ok l, Ok m, Ok s =>
      {| font_large := l; font_medium := m; font_small := s |}
  | _, _, _ => all_default
  end.

(** [def draw_text(text, x, y, font=font_medium, color=TEXT_COLOR)];
    no call overrides [color], and a call that omits [font] is written
    with [font_medium]. *)
Definition draw_text (text : string) (x y : Z) (font : Font)
  (color := TEXT_COLOR) : Draw Z :=
  PIL.text (x, y) text color font ;;
  ret (y + 20).

(** A whole script: create the image, bind the fonts, run the body.
    Saving the image and the final [print] are left to the caller. *)
Definition run (HEIGHT : Z) (body : Fonts -> Draw Z)
  (truetype : FontProvider) : Result (Z * Image) :=
  let img := PIL.new "RGB" (WIDTH, HEIGHT) BG_COLOR in
  rbind (load_fonts truetype) (fun fonts => Ok (body fonts img)).

End Prelude.

(* ================================================================== *)
(** * The three single-rate locale scripts *)
(* ================================================================== *)

(** [generate_test_receipt_fi.py] *)
Module Fi.
Import PIL Prelude.

Definition HEIGHT : Z := 550.

Definition body (fonts : Fonts) : Draw Z :=
  let font_large := font_large fonts in
  let font_medium := font_medium fonts in
  let font_small := font_small fonts in
  let y_position := 30 in

  (* Header *)
  y_position <- draw_text "SUPERMARKET ABC" 120 y_position font_large ;;
  y_position <- draw_text "123 Pääkatu" 130 y_position font_small ;;
  y_position <- draw_text "Helsinki, FI" 150 y_position font_small ;;
  let y_position := y_position + 10 in

  (* Date and Time *)
  y_position <- draw_text "Päivämäärä: 2026-01-02" 50 y_position font_medium ;;
  y_position <- draw_text "Aika: 13:30:15" 50 y_position font_medium ;;
  y_position <- draw_text "Kuitti nro 001234" 50 y_position font_medium ;;
  let y_position := y_position + 10 in

  (* Items section *)
  y_position <- draw_text "Tuotteet:" 50 y_position font_medium ;;
  y_position <- draw_text "Leipä                    €2.50" 50 y_position font_small ;;
  y_position <- draw_text "Maito 1L                  €1.89" 50 y_position font_small ;;
  y_position <- draw_text "Omenat 1kg               €3.20" 50 y_position font_small ;;
  y_position <- draw_text "Kahvi                     €4.99" 50 y_position font_small ;;
  let y_position := y_position + 10 in

  (* Subtotal *)
  y_position <- draw_text "Välisumma:                €12.58" 50 y_position font_medium ;;
  let y_position := y_position + 10 in

  (* VAT/ALV *)
  y_position <- draw_text "ALV 24%:                  €3.02" 50 y_position font_medium ;;
  let y_position := y_position + 10 in

  (* Total *)
  y_position <- draw_text "YHTEENSÄ:                 €15.60" 50 y_position font_medium ;;
  let y_position := y_position + 10 in

  (* Payment *)
  y_position <- draw_text "Maksutapa: KORTTI" 50 y_position font_medium ;;
  let y_position := y_position + 10 in

  (* Footer *)
  y_position <- draw_text "Kiitos!" 150 y_position font_medium ;;
  ret y_position.

Definition main : FontProvider -> Result (Z * Image) := run HEIGHT body.

End Fi.

(** [generate_test_receipt_de.py] *)
Module De.
Import PIL Prelude.

Definition HEIGHT : Z := 550.

Definition body (fonts : Fonts) : Draw Z :=
  let font_large := font_large fonts in
  let font_medium := font_medium fonts in
  let font_small := font_small fonts in
  let y_position := 30 in

  (* Header *)
  y_position <- draw_text "SUPERMARKET ABC" 120 y_position font_large ;;
  y_position <- draw_text "123 Hauptstraße" 130 y_position font_small ;;
  y_position <- draw_text "Berlin, DE" 150 y_position font_small ;;
  let y_position := y_position + 10 in

  (* Date and Time *)
  y_position <- draw_text "Datum: 2026-01-02" 50 y_position font_medium ;;
  y_position <- draw_text "Uhrzeit: 13:30:15" 50 y_position font_medium ;;
  y_position <- draw_text "Rechnung Nr. 001234" 50 y_position font_medium ;;
  let y_position := y_position + 10 in

  (* Items section *)
  y_position <- draw_text "Artikel:" 50 y_position font_medium ;;
  y_position <- draw_text "Brot                      €2.50" 50 y_position font_small ;;
  y_position <- draw_text "Milch 1L                  €1.89" 50 y_position font_small ;;
  y_position <- draw_text "Äpfel 1kg                €3.20" 50 y_position font_small ;;
  y_position <- draw_text "Kaffee                    €4.99" 50 y_position font_small ;;
  let y_position := y_position + 10 in

  (* Subtotal *)
  y_position <- draw_text "Zwischensumme:            €12.58" 50 y_position font_medium ;;
  let y_position := y_position + 10 in

  (* VAT/MWST *)
  y_position <- draw_text "MWST 24%:                 €3.02" 50 y_position font_medium ;;
  let y_position := y_position + 10 in

  (* Total *)
  y_position <- draw_text "GESAMT:                   €15.60" 50 y_position font_medium ;;
  let y_position := y_position + 10 in

  (* Payment *)
  y_position <- draw_text "Zahlung: KARTE" 50 y_position font_medium ;;
  let y_position := y_position + 10 in

  (* Footer *)
  y_position <- draw_text "Vielen Dank!" 150 y_position font_medium ;;
  ret y_position.

Definition main : FontProvider -> Result (Z * Image) := run HEIGHT body.

End De.

(** [generate_test_receipt_sv.py] *)
Module Sv.
Import PIL Prelude.

Definition HEIGHT : Z := 550.

Definition body (fonts : Fonts) : Draw Z :=
  let font_large := font_large fonts in
  let font_medium := font_medium fonts in
  let font_small := font_small fonts in
  let y_position := 30 in

  (* Header *)
  y_position <- draw_text "SUPERMARKET ABC" 120 y_position font_large ;;
  y_position <- draw_text "123 Huvudgatan" 130 y_position font_small ;;
  y_position <- draw_text "Stockholm, SE" 150 y_position font_small ;;
  let y_position := y_position + 10 in

  (* Date and Time *)
  y_position <- draw_text "Datum: 2026-01-02" 50 y_position font_medium ;;
  y_position <- draw_text "Tid: 13:30:15" 50 y_position font_medium ;;
  y_position <- draw_text "Kvitto nr 001234" 50 y_position font_medium ;;
  let y_position := y_position + 10 in

  (* Items section *)
  y_position <- draw_text "Varor:" 50 y_position font_medium ;;
  y_position <- draw_text "Bröd                      €2.50" 50 y_position font_small ;;
  y_position <- draw_text "Mjölk 1L                  €1.89" 50 y_position font_small ;;
  y_position <- draw_text "Äpplen 1kg               €3.20" 50 y_position font_small ;;
  y_position <- draw_text "Kaffe                     €4.99" 50 y_position font_small ;;
  let y_position := y_position + 10 in

  (* Subtotal *)
  y_position <- draw_text "Delsumma:                 €12.58" 50 y_position font_medium ;;
  let y_position := y_position + 10 in

  (* VAT/MOMS *)
  y_position <- draw_text "MOMS 24%:                 €3.02" 50 y_position font_medium ;;
  let y_position := y_position + 10 in

  (* Total *)
  y_position <- draw_text "TOTALT:                    €15.60" 50 y_position font_medium ;;
  let y_position := y_position + 10 in

  (* Payment *)
  y_position <- draw_text "Betalning: KORT" 50 y_position font_medium ;;
  let y_position := y_position + 10 in

  (* Footer *)
  y_position <- draw_text "Tack!" 150 y_position font_medium ;;
  ret y_position.

Definition main : FontProvider -> Result (Z * Image) := run HEIGHT body.

End Sv.

(* ================================================================== *)
(** * The two scripts with a tax breakdown table *)
(* ================================================================== *)

(** [generate_test_receipt_v2.py]: one tax rate, every amount a literal
    string. *)
Module V2.
Import PIL Prelude.

Definition HEIGHT : Z := 600.

Definition header_bg : Color := (240, 240, 240).
Definition table_width : Z := 320.
Definition table_x_start : Z := 40.
Definition table_x_end : Z := table_x_start + table_width.

Definition body (fonts : Fonts) : Draw Z :=
  let font_large := font_large fonts in
  let font_medium := font_medium fonts in
  let font_small := font_small fonts in
  let y_position := 30 in

  (* Header *)
  y_position <- draw_text "SUPERMARKET ABC" 120 y_position font_large ;;
  y_position <- draw_text "123 Main Street" 130 y_position font_small ;;
  y_position <- draw_text "Helsinki, FI" 150 y_position font_small ;;
  let y_position := y_position + 10 in

  (* Date and Time *)
  y_position <- draw_text "Date: 2026-01-02" 50 y_position font_medium ;;
  y_position <- draw_text "Time: 13:30:15" 50 y_position font_medium ;;
  y_position <- draw_text "Receipt # 001234" 50 y_position font_medium ;;
  let y_position := y_position + 10 in

  (* Items section *)
  y_position <- draw_text "Items:" 50 y_position font_medium ;;
  y_position <- draw_text "Bread                    €2.50" 50 y_position font_small ;;
  y_position <- draw_text "Milk 1L                  €1.89" 50 y_position font_small ;;
  y_position <- draw_text "Apples 1kg               €3.20" 50 y_position font_small ;;
  y_position <- draw_text "Coffee                   €4.99" 50 y_position font_small ;;
  let y_position := y_position + 10 in

  (* Subtotal *)
  y_position <- draw_text "Subtotal:                €12.58" 50 y_position font_medium ;;
  let y_position := y_position + 10 in

  (* Tax Breakdown Table *)
  let y_position := y_position + 5 in
  let table_y_start := y_position in

  (* Draw table border *)
  rectangle (table_x_start, y_position, table_x_end, y_position + 50) None (Some (0, 0, 0)) 2 ;;

  (* Header row *)
  rectangle (table_x_start, y_position, table_x_end, y_position + 25) (Some header_bg) None 1 ;;
  draw_text "Tax rate" 50 (y_position + 5) font_small ;;
  draw_text "Tax" 130 (y_position + 5) font_small ;;
  draw_text "Subtotal" 200 (y_position + 5) font_small ;;
  draw_text "Total" 280 (y_position + 5) font_small ;;

  (* Draw vertical lines *)
  line (120, y_position, 120, y_position + 50) (0, 0, 0) 1 ;;
  line (190, y_position, 190, y_position + 50) (0, 0, 0) 1 ;;
  line (270, y_position, 270, y_position + 50) (0, 0, 0) 1 ;;

  (* Draw horizontal line between header and data *)
  line (table_x_start, y_position + 25, table_x_end, y_position + 25) (0, 0, 0) 1 ;;

  let y_position := y_position + 25 in

  (* Table data row *)
  draw_text "14%" 50 (y_position + 5) font_small ;;
  draw_text "€1.76" 130 (y_position + 5) font_small ;;
  draw_text "€12.58" 200 (y_position + 5) font_small ;;
  draw_text "€14.34" 280 (y_position + 5) font_small ;;

  let y_position := y_position + 30 in

  (* Total *)
  y_position <- draw_text "TOTAL:                   €14.34" 50 y_position font_medium ;;
  let y_position := y_position + 10 in

  (* Payment *)
  y_position <- draw_text "Payment: CARD" 50 y_position font_medium ;;
  let y_position := y_position + 10 in

  (* Footer *)
  y_position <- draw_text "Thank you!" 150 y_position font_medium ;;
  ret y_position.

Definition main : FontProvider -> Result (Z * Image) := run HEIGHT body.

End V2.

(** [generate_test_receipt_v3.py]: two tax rates, the amounts computed in
    floating point and printed with [:.2f]. *)
Module V3.
Import PIL Prelude.

Definition HEIGHT : Z := 650.

(** The float variables of the script; they depend on nothing drawn, so
    they are bound here in the order the script assigns them. *)
Definition subtotal_14 : Py.float := (Py.lit 2.50 + Py.lit 1.89 + Py.lit 3.20)%py.
Definition subtotal_24 : Py.float := (Py.lit 4.99 + Py.lit 8.50)%py.
Definition total_subtotal : Py.float := (subtotal_14 + subtotal_24)%py.
Definition tax_14 : Py.float := (subtotal_14 * Py.lit 0.14)%py.
Definition total_14 : Py.float := (subtotal_14 + tax_14)%py.
Definition tax_24 : Py.float := (subtotal_24 * Py.lit 0.24)%py.
Definition total_24 : Py.float := (subtotal_24 + tax_24)%py.
Definition total_tax : Py.float := (tax_14 + tax_24)%py.
Definition grand_total : Py.float := (total_subtotal + total_tax)%py.

Definition header_bg : Color := (240, 240, 240).
Definition table_width : Z := 320.
Definition table_x_start : Z := 40.
Definition table_x_end : Z := table_x_start + table_width.
Definition row_height : Z := 25.
Definition table_height : Z := 25 + (row_height * 2) + 5.

Definition body (fonts : Fonts) : Draw Z :=
  let font_large := font_large fonts in
  let font_medium := font_medium fonts in
  let font_small := font_small fonts in
  let y_position := 30 in

  (* Header *)
  y_position <- draw_text "SUPERMARKET ABC" 120 y_position font_large ;;
  y_position <- draw_text "123 Main Street" 130 y_position font_small ;;
  y_position <- draw_text "Helsinki, FI" 150 y_position font_small ;;
  let y_position := y_position + 10 in

  (* Date and Time *)
  y_position <- draw_text "Date: 2026-01-02" 50 y_position font_medium ;;
  y_position <- draw_text "Time: 13:30:15" 50 y_position font_medium ;;
  y_position <- draw_text "Receipt # 001235" 50 y_position font_medium ;;
  let y_position := y_position + 10 in

  (* Items section - items with different tax rates *)
  y_position <- draw_text "Items:" 50 y_position font_medium ;;
  (* Items with 14% tax rate *)
  y_position <- draw_text "Bread                    €2.50" 50 y_position font_small ;;
  y_position <- draw_text "Milk 1L                  €1.89" 50 y_position font_small ;;
  y_position <- draw_text "Apples 1kg               €3.20" 50 y_position font_small ;;
  (* Items with 24% tax rate *)
  y_position <- draw_text "Coffee                   €4.99" 50 y_position font_small ;;
  y_position <- draw_text "Wine 750ml              €8.50" 50 y_position font_small ;;
  let y_position := y_position + 10 in

  (* Subtotal (before tax) *)

  y_position <- draw_text ("Subtotal:                €" ++ Py.format_2f total_subtotal) 50 y_position font_medium ;;
  let y_position := y_position + 10 in

  (* Tax Breakdown Table with 2 tax rates *)
  let y_position := y_position + 5 in
  let table_y_start := y_position in

  (* Draw table border *)
  rectangle (table_x_start, y_position, table_x_end, y_position + table_height) None (Some (0, 0, 0)) 2 ;;

  (* Header row *)
  rectangle (table_x_start, y_position, table_x_end, y_position + row_height) (Some header_bg) None 1 ;;
  draw_text "Tax rate" 50 (y_position + 5) font_small ;;
  draw_text "Tax" 130 (y_position + 5) font_small ;;
  draw_text "Subtotal" 200 (y_position + 5) font_small ;;
  draw_text "Total" 280 (y_position + 5) font_small ;;

  (* Draw vertical lines *)
  line (120, y_position, 120, y_position + table_height) (0, 0, 0) 1 ;;
  line (190, y_position, 190, y_position + table_height) (0, 0, 0) 1 ;;
  line (270, y_position, 270, y_position + table_height) (0, 0, 0) 1 ;;

  (* Draw horizontal line between header and data *)
  line (table_x_start, y_position + row_height, table_x_end, y_position + row_height) (0, 0, 0) 1 ;;

  let y_position := y_position + row_height in

  (* First data row: 14% tax rate *)

  draw_text "14%" 50 (y_position + 5) font_small ;;
  draw_text ("€" ++ Py.format_2f tax_14) 130 (y_position + 5) font_small ;;
  draw_text ("€" ++ Py.format_2f subtotal_14) 200 (y_position + 5) font_small ;;
  draw_text ("€" ++ Py.format_2f total_14) 280 (y_position + 5) font_small ;;

  (* Draw horizontal line between rows *)
  line (table_x_start, y_position + row_height, table_x_end, y_position + row_height) (0, 0, 0) 1 ;;

  let y_position := y_position + row_height in

  (* Second data row: 24% tax rate *)

  draw_text "24%" 50 (y_position + 5) font_small ;;
  draw_text ("€" ++ Py.format_2f tax_24) 130 (y_position + 5) font_small ;;
  draw_text ("€" ++ Py.format_2f subtotal_24) 200 (y_position + 5) font_small ;;
  draw_text ("€" ++ Py.format_2f total_24) 280 (y_position + 5) font_small ;;

  let y_position := y_position + row_height + 5 in

  (* Grand totals *)

  let y_position := y_position + 5 in
  y_position <- draw_text ("Total Tax:               €" ++ Py.format_2f total_tax) 50 y_position font_medium ;;
  y_position <- draw_text ("TOTAL:                   €" ++ Py.format_2f grand_total) 50 y_position font_medium ;;
  let y_position := y_position + 10 in

  (* Payment *)
  y_position <- draw_text "Payment: CARD" 50 y_position font_medium ;;
  let y_position := y_position + 10 in

  (* Footer *)
  y_position <- draw_text "Thank you!" 150 y_position font_medium ;;
  ret y_position.

Definition main : FontProvider -> Result (Z * Image) := run HEIGHT body.

End V3.

(* ================================================================== *)
(** * All five scripts *)
(* ================================================================== *)

Module Scripts.
Import PIL Prelude.

(** A script is its canvas height and its body. *)
Definition Script := (Z * (Fonts -> Draw Z))%type.

Definition fi : Script := (Fi.HEIGHT, Fi.body).
Definition de : Script := (De.HEIGHT, De.body).
Definition sv : Script := (Sv.HEIGHT, Sv.body).
Definition v2 : Script := (V2.HEIGHT, V2.body).
Definition v3 : Script := (V3.HEIGHT, V3.body).

Definition locale_scripts : list Script := [fi; de; sv].
Definition table_scripts : list Script := [v2; v3].
Definition all : list Script := locale_scripts ++ table_scripts.

Definition height (s : Script) : Z := fst s.

(** The final cursor and the image a script produces once its fonts
    are bound. *)
Definition render (s : Script) (fonts : Fonts) : Z * Image :=
  snd s fonts (PIL.new "RGB" (WIDTH, fst s) BG_COLOR).

Definition cursor (s : Script) (fonts : Fonts) : Z := fst (render s fonts).
Definition image (s : Script) (fonts : Fonts) : Image := snd (render s fonts).

(** The script run from its first line, fonts included. *)
Definition main (s : Script) : FontProvider -> Result (Z * Image) :=
  run (fst s) (snd s).

End Scripts.

(* ================================================================== *)
(** * Reading a rendered image back *)
(* ================================================================== *)

Module Layout.
Import PIL.

(** The line height: what [draw_text] adds to the offset it is given. *)
Definition line_height : Z := 20.

(** Position and content of the text calls, in drawing order. *)
Definition texts (img : Image) : list (Z * Z * string) :=
  flat_map (fun op =>
              match op with
              | Text (x, y) t _ _ => [(x, y, t)]
              | _ => []
              end) (drawn img).


(** The outer borders of tables: the rectangles drawn with an outline. *)
Definition borders (img : Image) : list (Z * Z * Z * Z) :=
  flat_map (fun op =>
              match op with
              | Rectangle xy _ (Some _) _ => [xy]
              | _ => []
              end) (drawn img).

(** Horizontal and vertical coordinates an operation mentions. *)
Definition xs_of (op : DrawOp) : list Z :=
  match op with
  | Text (x, _) _ _ _ => [x]
  | Rectangle (x0, _, x1, _) _ _ _ | Line (x0, _, x1, _) _ _ => [x0; x1]
  end.

Definition ys_of (op : DrawOp) : list Z :=
  match op with
  | Text (_, y) _ _ _ => [y]
  | Rectangle (_, y0, _, y1) _ _ _ | Line (_, y0, _, y1) _ _ => [y0; y1]
  end.

(** ** Rows *)






(** The offsets of the lines of text, one per line: adjacent cells at
    the same offset count once. *)
Fixpoint squeeze (l : list Z) : list Z :=
  match l with
  | a :: ((b :: _) as l') => if a =? b then squeeze l' else a :: squeeze l'
  | _ => l
  end.

Definition inside (box : Z * Z * Z * Z) (t : Z * Z * string) : bool :=
  let '(_, y0, _, y1) := box in
  let '(_, y, _) := t in
  (y0 <=? y) && (y + line_height <=? y1).

(** The offsets of the rows of the tables: the lines of text that lie
    inside a border. *)
Definition table_rows (img : Image) : list Z :=
  squeeze (map (fun t => snd (fst t))
             (filter (fun t => existsb (fun b => inside b t) (borders img))
                (texts img))).

(** The offsets of the plain rows: the lines of text outside every
    border. *)
Definition plain_rows (img : Image) : list Z :=
  squeeze (map (fun t => snd (fst t))
             (filter (fun t =>
                        negb (existsb (fun b => inside b t) (borders img)))
                (texts img))).

(** Differences of neighbours. *)
Fixpoint gaps (l : list Z) : list Z :=
  match l with
  | a :: ((b :: _) as l') => (b - a) :: gaps l'
  | _ => []
  end.

(** ** Bounds *)

Definition within (lo hi : Z) (v : Z) : Prop := lo <= v < hi.
Definition withinb (lo hi : Z) (v : Z) : bool := (lo <=? v) && (v <? hi).

Definition op_on_canvasb (w h : Z) (op : DrawOp) : bool :=
  forallb (withinb 0 w) (xs_of op) && forallb (withinb 0 h) (ys_of op).

(** ** Amounts *)

Definition digit (c : ascii) : option Z :=
  let n := Z.of_nat (nat_of_ascii c) in
  if (48 <=? n) && (n <=? 57) then Some (n - 48) else None.

(** The number a string starts with, how many digits it has, and what
    follows it. *)
Fixpoint number (s : string) (acc : Z) (n : nat) : Z * nat * string :=
  match s with
  | String c s' =>
      match digit c with
      | Some d => number s' (10 * acc + d) (S n)
      | None => (acc, n, s)
      end
  | EmptyString => (acc, n, s)
  end.

(** ["12.58"] is 1258 cents: digits, a point, two digits, the end. *)
Definition money (s : string) : option Z :=
  match number s 0 0 with
  | (_, O, _) => None
  | (units, _, String "." (String c1 (String c2 EmptyString))) =>
      match digit c1, digit c2 with
      | Some d1, Some d2 => Some (100 * units + 10 * d1 + d2)
      | _, _ => None
      end
  | _ => None
  end.

Definition euro : string := "€".

(** The amount in cents that follows the euro sign of a text. *)
Definition euro_amount (s : string) : option Z :=
  match index 0 euro s with
  | Some i =>
      let k := (i + String.length euro)%nat in
      money (substring k (String.length s - k) s)
  | None => None
  end.

(** The rate of a text that is a number followed by a percent sign and a
    rest, as in ["14%"] or ["24%:   ..."]. *)
Definition percent_prefix (s : string) : option Z :=
  match number s 0 0 with
  | (_, O, _) => None
  | (r, _, String "%" _) => Some r
  | _ => None
  end.

(** The rate named anywhere in a text. *)
Fixpoint percent (s : string) : option Z :=
  match percent_prefix s with
  | Some r => Some r
  | None =>
      match s with
      | String _ s' => percent s'
      | EmptyString => None
      end
  end.

(** A table cell that holds nothing but a rate. *)
Definition rate_cell (s : string) : option Z :=
  match number s 0 0 with
  | (_, O, _) => None
  | (r, _, String "%" EmptyString) => Some r
  | _ => None
  end.

(** The rows of text that show an amount: the rate they name, if any,
    and the amount in cents. *)
Definition amounts (img : Image) : list (option Z * Z) :=
  flat_map (fun t =>
              match euro_amount (snd t) with
              | Some a => [(percent (snd t), a)]
              | None => []
              end) (texts img).

(** A tax bucket as the table shows it: rate in percent, then tax,
    subtotal and total in cents. *)
Record Bucket := {
  rate : Z;
  tax : Z;
  subtotal : Z;
  total : Z
}.

(** The data rows of the tax tables: a rate cell and the three amounts
    drawn after it. *)
Fixpoint buckets_of (ts : list string) : list Bucket :=
  match ts with
  | r :: rest =>
      match rate_cell r, rest with
      | Some p, t :: s :: tot :: _ =>
          match euro_amount t, euro_amount s, euro_amount tot with
          | Some t', Some s', Some tot' =>
              {| rate := p; tax := t'; subtotal := s'; total := tot' |}
                :: buckets_of rest
          | _, _, _ => buckets_of rest
          end
      | _, _ => buckets_of rest
      end
  | [] => []
  end.

Definition buckets (img : Image) : list Bucket :=
  buckets_of (map snd (texts img)).

(** A bucket is consistent when its tax is the subtotal times the rate
    rounded to the cent and its total is subtotal plus tax rounded to
    the cent: in Python's floats with [round(_, 2)], and in exact
    decimal arithmetic, where the product is nearer to the shown tax
    than half a cent. *)
Definition bucket_consistent (b : Bucket) : Prop :=
  Py.round2 (Py.of_cents (subtotal b) * Py.of_cents (rate b))%py
  = Py.of_cents (tax b)
  /\ Py.round2 (Py.of_cents (subtotal b) + Py.of_cents (tax b))%py
     = Py.of_cents (total b)
  /\ 2 * Z.abs (subtotal b * rate b - 100 * tax b) < 100
  /\ total b = subtotal b + tax b.

(** The amounts of the rows whose text starts with [label]. *)
Definition labelled (label : string) (img : Image) : list Z :=
  flat_map (fun t =>
              if prefix label (snd t)
              then match euro_amount (snd t) with
                   | Some a => [a]
                   | None => []
                   end
              else []) (texts img).

Definition sum (l : list Z) : Z := fold_right Z.add 0 l.

(** The figures of a single-rate receipt: the item prices, the
    subtotal, the VAT row with its rate, and the total. *)
Record Summary := {
  items : list Z;
  shown_subtotal : Z;
  vat_rate : Z;
  vat : Z;
  shown_total : Z
}.

(** The amounts before the row that names a rate are the items and,
    last of them, the subtotal; the row after it is the total. *)
Fixpoint summarise (seen : list Z) (l : list (option Z * Z))
  : option Summary :=
  match l with
  | (None, a) :: l' => summarise (a :: seen) l'
  | (Some r, v) :: (_, t) :: _ =>
      match seen with
      | sub :: its =>
          Some {| items := rev its; shown_subtotal := sub;
                  vat_rate := r; vat := v; shown_total := t |}
      | [] => None
      end
  | _ => None
  end.

Definition summary (img : Image) : option Summary :=
  summarise [] (amounts img).

(** ** Properties of a layout *)

Definition on_canvas (w h : Z) (op : DrawOp) : Prop :=
  Forall (within 0 w) (xs_of op) /\ Forall (within 0 h) (ys_of op).

(** The offsets of the lines of text of an image, top line first. *)
Definition rows (img : Image) : list Z :=
  squeeze (map (fun t => snd (fst t)) (texts img)).




End Layout.

(* ================================================================== *)
(** * Paths, the file sink and the console *)
(* ================================================================== *)

(** [os.path] on a POSIX machine, for the calls the scripts make. *)
Module Posix.

Definition is_sep (c : ascii) : bool := Ascii.eqb c "/".

Fixpoint has_sep (p : string) : bool :=
  match p with
  | EmptyString => false
  | String c p' => is_sep c || has_sep p'
  end.

Fixpoint all_seps (p : string) : bool :=
  match p with
  | EmptyString => true
  | String c p' => is_sep c && all_seps p'
  end.

Definition starts_with_sep (p : string) : bool :=
  match p with
  | String c _ => is_sep c
  | EmptyString => false
  end.

Fixpoint ends_with_sep (p : string) : bool :=
  match p with
  | EmptyString => false
  | String c EmptyString => is_sep c
  | String _ p' => ends_with_sep p'
  end.

(** [p[:p.rfind('/') + 1]] *)
Fixpoint head_to_last_sep (p : string) : string :=
  match p with
  | EmptyString => EmptyString
  | String c p' =>
      if has_sep p then String c (head_to_last_sep p') else EmptyString
  end.

(** [p[p.rfind('/') + 1:]] *)
Fixpoint tail_from_last_sep (p : string) : string :=
  match p with
  | EmptyString => EmptyString
  | String _ p' => if has_sep p then tail_from_last_sep p' else p
  end.

(** [s.rstrip('/')] *)
Fixpoint rstrip_sep (s : string) : string :=
  match s with
  | EmptyString => EmptyString
  | String c s' => if all_seps s then EmptyString else String c (rstrip_sep s')
  end.

(** [os.path.dirname(p)] *)
Definition dirname (p : string) : string :=
  let head := head_to_last_sep p in
  if negb (String.eqb head "") && negb (all_seps head)
  then rstrip_sep head
  else head.

(** [os.path.basename(p)] *)
Definition basename (p : string) : string := tail_from_last_sep p.

(** [os.path.join(a, b)] *)
Definition join (a b : string) : string :=
  if starts_with_sep b then b
  else if String.eqb a "" || ends_with_sep a then (a ++ b)%string
  else (a ++ "/" ++ b)%string.

End Posix.

(** What a script finds on the machine it runs on, and what it leaves. *)
Module Sys.
Import PIL.

Record Env := {
  script_file : string;                       (* [__file__] *)
  truetype : FontProvider;                    (* [ImageFont.truetype] *)
  save_error : Image -> string -> option Exn  (* what [img.save] raises *)
}.

Record World := {
  stdout : list string;             (* the lines printed, oldest first *)
  files : list (string * Image)     (* the images written, oldest first *)
}.

Definition IO (A : Type) : Type := World -> World * Result A.

Definition ret {A} (a : A) : IO A := fun w => (w, Ok a).

(** Statements in sequence: an exception ends the script. *)
Definition bind {A B} (c : IO A) (k : A -> IO B) : IO B :=
  fun w =>
    match c w with
    | (w', Ok a) => k a w'
    | (w', Raise e) => (w', Raise e)
    end.

Definition lift {A} (r : Result A) : IO A := fun w => (w, r).

(** [print(line)] *)
Definition print (line : string) : IO unit :=
  fun w => ({| stdout := stdout w ++ [line]; files := files w |}, Ok tt).

(** [img.save(path)] *)
Definition save (env : Env) (img : Image) (path : string) : IO unit :=
  fun w =>
    match save_error env img path with
    | Some e => (w, Raise e)
    | None =>
        ({| stdout := stdout w; files := files w ++ [(path, img)] |}, Ok tt)
    end.

Definition nothing_yet : World := {| stdout := []; files := [] |}.

End Sys.

Notation "x <~ c1 >> c2" := (Sys.bind c1 (fun x => c2))
  (at level 61, c1 at next level, right associativity).
Notation "c1 >> c2" := (Sys.bind c1 (fun _ => c2))
  (at level 61, right associativity).

(** The five scripts from their first line to their last: the drawing of
    [main], then the lines that save the image and report it. *)
Module Whole.
Import PIL Posix Sys.

Local Open Scope string_scope.

Definition fi_output_path (env : Env) : string :=
  join (dirname (script_file env)) "test_receipt_fi.png".

Definition fi (env : Env) : IO unit :=
  finished <~ lift (Fi.main (truetype env)) >>
  let img := snd finished in
  let output_path := fi_output_path env in
  save env img output_path >>
  print ("Finnish test receipt image saved to: " ++ output_path).

Definition de_output_path (env : Env) : string :=
  join (dirname (script_file env)) "test_receipt_de.png".

Definition de (env : Env) : IO unit :=
  finished <~ lift (De.main (truetype env)) >>
  let img := snd finished in
  let output_path := de_output_path env in
  save env img output_path >>
  print ("German test receipt image saved to: " ++ output_path).

Definition sv_output_path (env : Env) : string :=
  join (dirname (script_file env)) "test_receipt_sv.png".

Definition sv (env : Env) : IO unit :=
  finished <~ lift (Sv.main (truetype env)) >>
  let img := snd finished in
  let output_path := sv_output_path env in
  save env img output_path >>
  print ("Swedish test receipt image saved to: " ++ output_path).

Definition v2_output_path (env : Env) : string :=
  join (dirname (script_file env)) "test_receipt_v2.png".

Definition v2 (env : Env) : IO unit :=
  finished <~ lift (V2.main (truetype env)) >>
  let img := snd finished in
  let output_path := v2_output_path env in
  save env img output_path >>
  print ("Test receipt image saved to: " ++ output_path).

Definition v3_output_path (env : Env) : string :=
  join (dirname (script_file env)) "test_receipt_v3.png".

(** The three summary lines the two-rate script prints last. *)
Definition v3_line_14 : string :=
  "  - 14% tax rate: Subtotal €" ++ Py.format_2f V3.subtotal_14
    ++ ", Tax €" ++ Py.format_2f V3.tax_14
    ++ ", Total €" ++ Py.format_2f V3.total_14.

Definition v3_line_24 : string :=
  "  - 24% tax rate: Subtotal €" ++ Py.format_2f V3.subtotal_24
    ++ ", Tax €" ++ Py.format_2f V3.tax_24
    ++ ", Total €" ++ Py.format_2f V3.total_24.

Definition v3_line_grand : string :=
  "  - Grand Total: Subtotal €" ++ Py.format_2f V3.total_subtotal
    ++ ", Tax €" ++ Py.format_2f V3.total_tax
    ++ ", Total €" ++ Py.format_2f V3.grand_total.

Definition v3_summary : list string :=
  [v3_line_14; v3_line_24; v3_line_grand].

Definition v3 (env : Env) : IO unit :=
  finished <~ lift (V3.main (truetype env)) >>
  let img := snd finished in
  let output_path := v3_output_path env in
  save env img output_path >>
  print ("Test receipt image saved to: " ++ output_path) >>
  print v3_line_14 >>
  print v3_line_24 >>
  print v3_line_grand.

(** A complete script with what it is expected to leave: the script it
    draws, the name of its file, and the lines of its report. *)
Record Program := {
  run : Env -> IO unit;
  draws : Scripts.Script;
  output_path : Env -> string;
  file_name : string;
  report : string -> list string
}.

Definition programs : list Program :=
  [ {| run := fi; draws := Scripts.fi; output_path := fi_output_path;
       file_name := "test_receipt_fi.png";
       report := fun p => ["Finnish test receipt image saved to: " ++ p] |};
    {| run := de; draws := Scripts.de; output_path := de_output_path;
       file_name := "test_receipt_de.png";
       report := fun p => ["German test receipt image saved to: " ++ p] |};
    {| run := sv; draws := Scripts.sv; output_path := sv_output_path;
       file_name := "test_receipt_sv.png";
       report := fun p => ["Swedish test receipt image saved to: " ++ p] |};
    {| run := v2; draws := Scripts.v2; output_path := v2_output_path;
       file_name := "test_receipt_v2.png";
       report := fun p => ["Test receipt image saved to: " ++ p] |};
    {| run := v3; draws := Scripts.v3; output_path := v3_output_path;
       file_name := "test_receipt_v3.png";
       report := fun p => ("Test receipt image saved to: " ++ p)
                            :: v3_summary |} ].


End Whole.

(* ================================================================== *)
(** * More ways to read an image back *)
(* ================================================================== *)

Module Views.
Import PIL Layout.

(** The image [img] with the calls [ops] drawn after its own. *)
Definition extend (img : Image) (ops : list DrawOp) : Image :=
  {| mode := mode img; size := size img; color := color img;
     drawn := drawn img ++ ops |}.

(** The program [c] returns [a] and adds the calls [ops], whatever image
    it is given. *)
Definition appends {A} (c : Draw A) (a : A) (ops : list DrawOp) : Prop :=
  forall img, c img = (a, extend img ops).

(** A call without its font. *)
Definition shape (op : DrawOp) : DrawOp :=
  match op with
  | Text xy t fill _ => Text xy t fill DefaultFont
  | _ => op
  end.

(** A call without its words. *)
Definition wordless (op : DrawOp) : DrawOp :=
  match op with
  | Text xy _ fill font => Text xy EmptyString fill font
  | _ => op
  end.

(** The fonts of the text calls, in drawing order. *)
Definition fonts_used (img : Image) : list Font :=
  flat_map (fun op =>
              match op with
              | Text _ _ _ font => [font]
              | _ => []
              end) (drawn img).

(** A provider that has the font at every size but one. *)
Definition missing_size (n : Z) : FontProvider :=
  fun path size =>
    if size =? n then Raise (Raised "OSError")
    else Ok (FreeTypeFont path size).

(** ** The grid of a table *)

(** Vertical lines: their column and the offsets they span. *)
Definition vertical_lines (img : Image) : list (Z * (Z * Z)) :=
  flat_map (fun op =>
              match op with
              | Line (x0, y0, x1, y1) _ _ =>
                  if x0 =? x1 then [(x0, (y0, y1))] else []
              | _ => []
              end) (drawn img).

(** Horizontal lines: their offset and the columns they span. *)
Definition horizontal_lines (img : Image) : list (Z * (Z * Z)) :=
  flat_map (fun op =>
              match op with
              | Line (x0, y0, x1, y1) _ _ =>
                  if y0 =? y1 then [(y0, (x0, x1))] else []
              | _ => []
              end) (drawn img).

(** The cells of the tables: the texts inside a border. *)
Definition cells (img : Image) : list (Z * Z * string) :=
  filter (fun t => existsb (fun b => inside b t) (borders img)) (texts img).

(** Consecutive cells at one offset make a row; a row is the list of the
    columns its cells start at. *)
Fixpoint group_rows (at_y : option Z) (row : list Z)
  (l : list (Z * Z * string)) : list (list Z) :=
  match l with
  | [] => match row with [] => [] | _ => [rev row] end
  | (x, y, _) :: l' =>
      match at_y with
      | Some y0 =>
          if y =? y0 then group_rows at_y (x :: row) l'
          else rev row :: group_rows (Some y) [x] l'
      | None => group_rows (Some y) [x] l'
      end
  end.

Definition cell_rows (img : Image) : list (list Z) :=
  group_rows None [] (cells img).

(** ** Drawing order *)

Definition covers (box : Z * Z * Z * Z) (xy : Z * Z) : bool :=
  let '(x0, y0, x1, y1) := box in
  let '(x, y) := xy in
  (x0 <=? x) && (x <=? x1) && (y0 <=? y) && (y <=? y1).

Definition fill_over (xy : Z * Z) (op : DrawOp) : bool :=
  match op with
  | Rectangle box (Some _) _ _ => covers box xy
  | _ => false
  end.

(** The texts that a filled rectangle drawn later paints over. *)
Fixpoint painted_over (ops : list DrawOp) : list string :=
  match ops with
  | [] => []
  | Text xy t _ _ :: rest =>
      if existsb (fill_over xy) rest then t :: painted_over rest
      else painted_over rest
  | _ :: rest => painted_over rest
  end.

(** The texts drawn on top of a filled rectangle drawn earlier. *)
Fixpoint painted_on (before ops : list DrawOp) : list string :=
  match ops with
  | [] => []
  | op :: rest =>
      match op with
      | Text xy t _ _ =>
          if existsb (fill_over xy) before
          then t :: painted_on (op :: before) rest
          else painted_on (op :: before) rest
      | _ => painted_on (op :: before) rest
      end
  end.

(** ** Amounts inside a line of text *)

(** ["12.58, ..."] starts with 1258 cents. *)
Definition money_prefix (s : string) : option Z :=
  match number s 0 0 with
  | (_, O, _) => None
  | (units, _, String "." (String c1 (String c2 _))) =>
      match digit c1, digit c2 with
      | Some d1, Some d2 => Some (100 * units + 10 * d1 + d2)
      | _, _ => None
      end
  | _ => None
  end.

(** Every amount that follows a euro sign in a line. *)
Fixpoint amounts_in (s : string) : list Z :=
  match s with
  | EmptyString => []
  | String _ s' =>
      (if prefix euro s
       then match money_prefix
                    (substring (String.length euro)
                       (String.length s - String.length euro) s) with
            | Some a => [a]
            | None => []
            end
       else []) ++ amounts_in s'
  end.

(** The amounts of the rows drawn before the first row that starts with
    [label]: the item prices. *)
Fixpoint amounts_before (label : string) (ts : list string) : list Z :=
  match ts with
  | [] => []
  | t :: ts' =>
      if prefix label t then []
      else match euro_amount t with
           | Some a => a :: amounts_before label ts'
           | None => amounts_before label ts'
           end
  end.

Definition item_prices (label : string) (img : Image) : list Z :=
  amounts_before label (map snd (texts img)).

End Views.

(* ================================================================== *)
(** * The scripts, statement by statement *)
(* ================================================================== *)

(** After the prelude a script is a sequence of statements of five
    forms.  They are listed here as data and run by [exec], which makes
    the same calls as the bodies above and also records, for every row,
    the offset it was drawn at and the cursor [draw_text] returned. *)
Module Statements.
Import PIL Prelude.

Local Open Scope string_scope.

Variant FontName := Large | Medium | Small.

Definition pick (fonts : Fonts) (f : FontName) : Font :=
  match f with
  | Large => font_large fonts
  | Medium => font_medium fonts
  | Small => font_small fonts
  end.

Inductive Stmt :=
| Row (text : string) (x : Z) (font : FontName)
    (* [y_position = draw_text(text, x, y_position, font)] *)
| Skip (by_ : Z)
    (* [y_position += by] *)
| Cell (text : string) (x dy : Z) (font : FontName)
    (* [draw_text(text, x, y_position + dy, font)], result dropped *)
| Box (x0 dy0 x1 dy1 : Z) (fill outline : option Color) (width : Z)
    (* [draw.rectangle([x0, y_position + dy0, x1, y_position + dy1], ...)] *)
| Rule (x0 dy0 x1 dy1 : Z) (fill : Color) (width : Z).
    (* [draw.line([x0, y_position + dy0, x1, y_position + dy1], ...)] *)

(** What happened at one row: where its text was drawn and what the
    call returned as the next cursor. *)
Record Step := {
  drawn_at : Z;
  cursor_after : Z
}.

Fixpoint exec (p : list Stmt) (fonts : Fonts) (y_position : Z)
  : Draw (Z * list Step) :=
  match p with
  | [] => ret (y_position, [])
  | Row text x font :: rest =>
      next <- draw_text text x y_position (pick fonts font) ;;
      r <- exec rest fonts next ;;
      ret (fst r,
           {| drawn_at := y_position; cursor_after := next |} :: snd r)
  | Skip k :: rest =>
      exec rest fonts (y_position + k)
  | Cell text x dy font :: rest =>
      draw_text text x (y_position + dy) (pick fonts font) ;;
      exec rest fonts y_position
  | Box x0 dy0 x1 dy1 fill outline width :: rest =>
      rectangle (x0, y_position + dy0, x1, y_position + dy1)
        fill outline width ;;
      exec rest fonts y_position
  | Rule x0 dy0 x1 dy1 fill width :: rest =>
      line (x0, y_position + dy0, x1, y_position + dy1) fill width ;;
      exec rest fonts y_position
  end.

(** The statements of the five scripts, from the line after
    [def draw_text] to the footer. *)
Definition fi : list Stmt :=
  [ Row "SUPERMARKET ABC" 120 Large;
    Row "123 Pääkatu" 130 Small;
    Row "Helsinki, FI" 150 Small;
    Skip 10;
    Row "Päivämäärä: 2026-01-02" 50 Medium;
    Row "Aika: 13:30:15" 50 Medium;
    Row "Kuitti nro 001234" 50 Medium;
    Skip 10;
    Row "Tuotteet:" 50 Medium;
    Row "Leipä                    €2.50" 50 Small;
    Row "Maito 1L                  €1.89" 50 Small;
    Row "Omenat 1kg               €3.20" 50 Small;
    Row "Kahvi                     €4.99" 50 Small;
    Skip 10;
    Row "Välisumma:                €12.58" 50 Medium;
    Skip 10;
    Row "ALV 24%:                  €3.02" 50 Medium;
    Skip 10;
    Row "YHTEENSÄ:                 €15.60" 50 Medium;
    Skip 10;
    Row "Maksutapa: KORTTI" 50 Medium;
    Skip 10;
    Row "Kiitos!" 150 Medium ].

Definition de : list Stmt :=
  [ Row "SUPERMARKET ABC" 120 Large;
    Row "123 Hauptstraße" 130 Small;
    Row "Berlin, DE" 150 Small;
    Skip 10;
    Row "Datum: 2026-01-02" 50 Medium;
    Row "Uhrzeit: 13:30:15" 50 Medium;
    Row "Rechnung Nr. 001234" 50 Medium;
    Skip 10;
    Row "Artikel:" 50 Medium;
    Row "Brot                      €2.50" 50 Small;
    Row "Milch 1L                  €1.89" 50 Small;
    Row "Äpfel 1kg                €3.20" 50 Small;
    Row "Kaffee                    €4.99" 50 Small;
    Skip 10;
    Row "Zwischensumme:            €12.58" 50 Medium;
    Skip 10;
    Row "MWST 24%:                 €3.02" 50 Medium;
    Skip 10;
    Row "GESAMT:                   €15.60" 50 Medium;
    Skip 10;
    Row "Zahlung: KARTE" 50 Medium;
    Skip 10;
    Row "Vielen Dank!" 150 Medium ].

Definition sv : list Stmt :=
  [ Row "SUPERMARKET ABC" 120 Large;
    Row "123 Huvudgatan" 130 Small;
    Row "Stockholm, SE" 150 Small;
    Skip 10;
    Row "Datum: 2026-01-02" 50 Medium;
    Row "Tid: 13:30:15" 50 Medium;
    Row "Kvitto nr 001234" 50 Medium;
    Skip 10;
    Row "Varor:" 50 Medium;
    Row "Bröd                      €2.50" 50 Small;
    Row "Mjölk 1L                  €1.89" 50 Small;
    Row "Äpplen 1kg               €3.20" 50 Small;
    Row "Kaffe                     €4.99" 50 Small;
    Skip 10;
    Row "Delsumma:                 €12.58" 50 Medium;
    Skip 10;
    Row "MOMS 24%:                 €3.02" 50 Medium;
    Skip 10;
    Row "TOTALT:                    €15.60" 50 Medium;
    Skip 10;
    Row "Betalning: KORT" 50 Medium;
    Skip 10;
    Row "Tack!" 150 Medium ].

Definition v2 : list Stmt :=
  [ Row "SUPERMARKET ABC" 120 Large;
    Row "123 Main Street" 130 Small;
    Row "Helsinki, FI" 150 Small;
    Skip 10;
    Row "Date: 2026-01-02" 50 Medium;
    Row "Time: 13:30:15" 50 Medium;
    Row "Receipt # 001234" 50 Medium;
    Skip 10;
    Row "Items:" 50 Medium;
    Row "Bread                    €2.50" 50 Small;
    Row "Milk 1L                  €1.89" 50 Small;
    Row "Apples 1kg               €3.20" 50 Small;
    Row "Coffee                   €4.99" 50 Small;
    Skip 10;
    Row "Subtotal:                €12.58" 50 Medium;
    Skip 10;
    Skip 5;
    Box V2.table_x_start 0 V2.table_x_end 50 None (Some (0, 0, 0)) 2;
    Box V2.table_x_start 0 V2.table_x_end 25 (Some V2.header_bg) None 1;
    Cell "Tax rate" 50 5 Small;
    Cell "Tax" 130 5 Small;
    Cell "Subtotal" 200 5 Small;
    Cell "Total" 280 5 Small;
    Rule 120 0 120 50 (0, 0, 0) 1;
    Rule 190 0 190 50 (0, 0, 0) 1;
    Rule 270 0 270 50 (0, 0, 0) 1;
    Rule V2.table_x_start 25 V2.table_x_end 25 (0, 0, 0) 1;
    Skip 25;
    Cell "14%" 50 5 Small;
    Cell "€1.76" 130 5 Small;
    Cell "€12.58" 200 5 Small;
    Cell "€14.34" 280 5 Small;
    Skip 30;
    Row "TOTAL:                   €14.34" 50 Medium;
    Skip 10;
    Row "Payment: CARD" 50 Medium;
    Skip 10;
    Row "Thank you!" 150 Medium ].

Definition v3 : list Stmt :=
  [ Row "SUPERMARKET ABC" 120 Large;
    Row "123 Main Street" 130 Small;
    Row "Helsinki, FI" 150 Small;
    Skip 10;
    Row "Date: 2026-01-02" 50 Medium;
    Row "Time: 13:30:15" 50 Medium;
    Row "Receipt # 001235" 50 Medium;
    Skip 10;
    Row "Items:" 50 Medium;
    Row "Bread                    €2.50" 50 Small;
    Row "Milk 1L                  €1.89" 50 Small;
    Row "Apples 1kg               €3.20" 50 Small;
    Row "Coffee                   €4.99" 50 Small;
    Row "Wine 750ml              €8.50" 50 Small;
    Skip 10;
    Row ("Subtotal:                €" ++ Py.format_2f V3.total_subtotal) 50 Medium;
    Skip 10;
    Skip 5;
    Box V3.table_x_start 0 V3.table_x_end V3.table_height None (Some (0, 0, 0)) 2;
    Box V3.table_x_start 0 V3.table_x_end V3.row_height (Some V3.header_bg) None 1;
    Cell "Tax rate" 50 5 Small;
    Cell "Tax" 130 5 Small;
    Cell "Subtotal" 200 5 Small;
    Cell "Total" 280 5 Small;
    Rule 120 0 120 V3.table_height (0, 0, 0) 1;
    Rule 190 0 190 V3.table_height (0, 0, 0) 1;
    Rule 270 0 270 V3.table_height (0, 0, 0) 1;
    Rule V3.table_x_start V3.row_height V3.table_x_end V3.row_height (0, 0, 0) 1;
    Skip V3.row_height;
    Cell "14%" 50 5 Small;
    Cell ("€" ++ Py.format_2f V3.tax_14) 130 5 Small;
    Cell ("€" ++ Py.format_2f V3.subtotal_14) 200 5 Small;
    Cell ("€" ++ Py.format_2f V3.total_14) 280 5 Small;
    Rule V3.table_x_start V3.row_height V3.table_x_end V3.row_height (0, 0, 0) 1;
    Skip V3.row_height;
    Cell "24%" 50 5 Small;
    Cell ("€" ++ Py.format_2f V3.tax_24) 130 5 Small;
    Cell ("€" ++ Py.format_2f V3.subtotal_24) 200 5 Small;
    Cell ("€" ++ Py.format_2f V3.total_24) 280 5 Small;
    Skip (V3.row_height + 5);
    Skip 5;
    Row ("Total Tax:               €" ++ Py.format_2f V3.total_tax) 50 Medium;
    Row ("TOTAL:                   €" ++ Py.format_2f V3.grand_total) 50 Medium;
    Skip 10;
    Row "Payment: CARD" 50 Medium;
    Skip 10;
    Row "Thank you!" 150 Medium ].

(** Each script with its statements. *)
Definition transcribed : list (Scripts.Script * list Stmt) :=
  [ (Scripts.fi, fi); (Scripts.de, de); (Scripts.sv, sv);
    (Scripts.v2, v2); (Scripts.v3, v3) ].

(** The statements run on the canvas of the script, from the cursor the
    scripts start at. *)
Definition run_on_canvas (sp : Scripts.Script * list Stmt) (fonts : Fonts)
  : (Z * list Step) * Image :=
  exec (snd sp) fonts 30
    (PIL.new "RGB" (WIDTH, Scripts.height (fst sp)) BG_COLOR).

Definition steps (sp : Scripts.Script * list Stmt) (fonts : Fonts)
  : list Step :=
  snd (fst (run_on_canvas sp fonts)).

(** A statement that moves the cursor and draws nothing. *)
Definition draws_nothing (s : Stmt) : bool :=
  match s with
  | Skip _ => true
  | _ => false
  end.

(** Modelled from the spec: the ReceiptRenderer of section 4.1,
    [render(spec, canvasWidth, canvasHeight)], which the repository has
    only unrolled, once per script.  It creates a blank canvas of the
    given size and background, binds the fonts as the scripts do, and
    runs the rows of the spec in order from the initial cursor of the
    scripts; the caller passes positive dimensions. *)
Definition render (spec : list Stmt) (canvasWidth canvasHeight : Z)
  (background : Color) (truetype : FontProvider) : Result Image :=
  let img := PIL.new "RGB" (canvasWidth, canvasHeight) background in
  rbind (load_fonts truetype) (fun fonts => Ok (snd (exec spec fonts 30 img))).

End Statements.

(* ================================================================== *)
(** * Font loading *)
(* ================================================================== *)

Section FontLoading.
Import PIL Prelude.

Lemma load_fonts_resolved (truetype : FontProvider) :
  load_fonts truetype = Ok (resolved truetype).
Proof.
  unfold load_fonts, resolved, try_except, rbind, all_default.
  destruct (truetype helvetica 16); [ | reflexivity ].
  destruct (truetype helvetica 14); [ | reflexivity ].
  destruct (truetype helvetica 12); reflexivity.
Qed.

Lemma run_render (HEIGHT : Z) (body : Fonts -> Draw Z)
  (truetype : FontProvider) :
  run HEIGHT body truetype
  = Ok (Scripts.render (HEIGHT, body) (resolved truetype)).
Proof.
  unfold run. rewrite load_fonts_resolved. reflexivity.
Qed.

Lemma main_render (s : Scripts.Script) (truetype : FontProvider) :
  Scripts.main s truetype = Ok (Scripts.render s (resolved truetype)).
Proof. destruct s as [h body]. apply run_render. Qed.

(** C8: binding the fonts never raises.  Whatever [truetype] does, the
    [try]/[except] block ends with three font handles: the three loaded
    fonts when all three calls succeed, and the built-in default font
    in all three variables as soon as one call raises; so every script
    runs to its end and returns its image. *)
Theorem font_loading_never_raises (truetype : FontProvider) :
  load_fonts truetype
  = Ok (match truetype helvetica 16,
              truetype helvetica 14,
              truetype helvetica 12 with
        | Ok l, Ok m, Ok s =>
            {| font_large := l; font_medium := m; font_small := s |}
        | _, _, _ =>
            {| font_large := load_default;
               font_medium := load_default;
               font_small := load_default |}
        end)
  /\ Forall (fun s => exists y img, Scripts.main s truetype = Ok (y, img))
       Scripts.all.
Proof.
  split.
  - apply load_fonts_resolved.
  - apply Forall_forall. intros s _.
    rewrite main_render.
    destruct (Scripts.render s (resolved truetype)) as [y img].
    exists y, img. reflexivity.
Qed.

End FontLoading.

(* ================================================================== *)
(** * The blank canvas *)
(* ================================================================== *)

Section BlankCanvas.
Import PIL Prelude Statements.

Variable paint : DrawOp -> Raster -> Raster.

Lemma exec_draws_nothing (spec : list Stmt) :
  Forall (fun s => draws_nothing s = true) spec ->
  forall fonts y img, snd (exec spec fonts y img) = img.
Proof.
  induction 1 as [ | s spec Hs _ IH ]; intros fonts y img.
  - reflexivity.
  - destruct s; try discriminate Hs. simpl. apply IH.
Qed.

(** The renderer run on the statements of a script, on the canvas of
    that script, returns the image of the script. *)
Lemma render_transcribed :
  Forall (fun sp => forall truetype,
              rbind (Scripts.main (fst sp) truetype) (fun r => Ok (snd r))
              = render (snd sp) WIDTH (Scripts.height (fst sp)) BG_COLOR
                  truetype)
    transcribed.
Proof.
  cbv [transcribed]. repeat (apply Forall_cons); [ .. | apply Forall_nil ];
    intros truetype; unfold render;
    rewrite main_render, load_fonts_resolved;
    generalize (resolved truetype); intros fonts;
    vm_compute; reflexivity.
Qed.

(** C7: a spec without rows leaves the canvas blank.  For positive
    canvas dimensions and any background, the renderer run on a spec
    that holds no drawing statement returns an image of the requested
    size and background on which nothing was drawn: every pixel of the
    canvas reads as the background colour, and no pixel reads as
    anything else. *)
Theorem zero_rows_blank_canvas
  (spec : list Stmt) (canvasWidth canvasHeight : Z) (background : Color)
  (truetype : FontProvider)
  (Hwidth : 0 < canvasWidth) (Hheight : 0 < canvasHeight)
  (Hrows : Forall (fun s => draws_nothing s = true) spec) :
  exists img,
    render spec canvasWidth canvasHeight background truetype = Ok img
    /\ size img = (canvasWidth, canvasHeight)
    /\ color img = background
    /\ drawn img = []
    /\ (forall x y, 0 <= x < canvasWidth -> 0 <= y < canvasHeight ->
                    getpixel paint img x y = Ok background)
    /\ (forall x y c, getpixel paint img x y = Ok c -> c = background).
Proof.
  exists (PIL.new "RGB" (canvasWidth, canvasHeight) background).
  split.
  { unfold render. rewrite load_fonts_resolved. cbn [rbind].
    rewrite (exec_draws_nothing spec Hrows). reflexivity. }
  split; [ reflexivity | ]. split; [ reflexivity | ].
  split; [ reflexivity | ]. split.
  - intros x y Hx Hy. unfold getpixel, in_bounds. cbn [size PIL.new fst snd].
    destruct (Z.ltb_spec x 0) as [Hneg | _]; [ lia | ].
    destruct (Z.ltb_spec y 0) as [Hneg | _]; [ lia | ].
    replace (0 <=? x) with true by (symmetry; apply Z.leb_le; lia).
    replace (x <? canvasWidth) with true by (symmetry; apply Z.ltb_lt; lia).
    replace (0 <=? y) with true by (symmetry; apply Z.leb_le; lia).
    replace (y <? canvasHeight) with true by (symmetry; apply Z.ltb_lt; lia).
    reflexivity.
  - intros x y c. unfold getpixel.
    match goal with
    | |- context [if ?b then Ok _ else _] => destruct b
    end; [ | discriminate ].
    intros H. injection H as <-. reflexivity.
Qed.

End BlankCanvas.

Lemma zero_rows_blank_canvas_witness :
  exists img,
    Statements.render [] 400 550 (255, 255, 255)
      (fun _ _ => Raise (Raised "OSError")) = Ok img
    /\ PIL.size img = (400, 550)
    /\ PIL.color img = (255, 255, 255)
    /\ PIL.drawn img = []
    /\ (forall x y, 0 <= x < 400 -> 0 <= y < 550 ->
                    PIL.getpixel (fun _ r => r) img x y = Ok (255, 255, 255))
    /\ (forall x y c, PIL.getpixel (fun _ r => r) img x y = Ok c ->
                      c = (255, 255, 255)).
Proof.
  apply (zero_rows_blank_canvas (fun _ r => r) [] 400 550 (255, 255, 255)
           (fun _ _ => Raise (Raised "OSError"))).
  - lia.
  - lia.
  - apply Forall_nil.
Defined.

(* ================================================================== *)
(** * Layout *)
(* ================================================================== *)

(** Split a conjunction into its parts, without unfolding them. *)
Ltac conjs := repeat match goal with |- _ /\ _ => split end.

(** Decide a closed [Py.denotes]. *)
Ltac float_check :=
  vm_compute;
  split; [ split; reflexivity | ];
  split; [ split; reflexivity | ];
  first [ left; reflexivity | right; split; reflexivity ].

(** Split a statement about every script into one goal per script. *)
Ltac each_script :=
  cbv [Scripts.all Scripts.locale_scripts Scripts.table_scripts app];
  repeat (apply Forall_cons); [ .. | apply Forall_nil ].

Section LayoutChecks.
Import PIL Prelude Layout.








Lemma withinb_sound lo hi v : withinb lo hi v = true -> within lo hi v.
Proof.
  unfold withinb, within. intros H.
  apply andb_true_iff in H as [H1 H2].
  split; [ apply Z.leb_le; exact H1 | apply Z.ltb_lt; exact H2 ].
Qed.

Lemma forallb_Forall {A} (f : A -> bool) (P : A -> Prop) :
  (forall a, f a = true -> P a) ->
  forall l, forallb f l = true -> Forall P l.
Proof.
  intros HfP l H. apply Forall_forall. intros a Ha.
  apply HfP. rewrite forallb_forall in H. apply H. exact Ha.
Qed.

Lemma op_on_canvasb_sound w h op :
  op_on_canvasb w h op = true -> on_canvas w h op.
Proof.
  unfold op_on_canvasb, on_canvas. intros H.
  apply andb_true_iff in H as [Hx Hy].
  split; eapply forallb_Forall; eauto using withinb_sound.
Qed.


(** C10: every script draws inside its canvas.  Each coordinate a
    drawing call mentions lies in [0, WIDTH) horizontally and in
    [0, HEIGHT) vertically, the band of every line of text ends above
    the bottom edge, and the cursor after the footer does not exceed
    HEIGHT. *)
Theorem layout_within_canvas :
  Forall (fun s => forall fonts,
              Forall (on_canvas WIDTH (Scripts.height s))
                (drawn (Scripts.image s fonts))
              /\ Forall (fun y => y + line_height <= Scripts.height s)
                   (rows (Scripts.image s fonts))
              /\ Scripts.cursor s fonts <= Scripts.height s)
    Scripts.all.
Proof.
  each_script; intros fonts; (split; [ | split ]).
  all: try (apply (forallb_Forall _ _ (op_on_canvasb_sound _ _));
            vm_compute; reflexivity).
  all: try (apply (forallb_Forall (fun y => y + line_height <=? _) _
                     (fun y => proj1 (Z.leb_le _ _)));
            vm_compute; reflexivity).
  all: apply Z.leb_le; vm_compute; reflexivity.
Qed.

(** C5: every row advances the cursor by 20 and table rows lie 25
    apart.  In each script, run statement by statement, every plain text
    row is drawn at the cursor and [draw_text] returns that offset plus
    20 as the next cursor; these rows are exactly the lines of text
    outside the tables, and the statements give the image and the final
    cursor of the script; the cursor after the footer is the footer's
    offset plus 20; and the rows of every table lie exactly 25 apart. *)
Theorem cursor_steps :
  Forall (fun sp => forall fonts,
              let s := fst sp in
              let r := Statements.run_on_canvas sp fonts in
              (fst (fst r), snd r) = Scripts.render s fonts
              /\ Statements.steps sp fonts <> []
              /\ Forall (fun st => Statements.cursor_after st
                                   = Statements.drawn_at st + 20)
                   (Statements.steps sp fonts)
              /\ map Statements.drawn_at (Statements.steps sp fonts)
                 = plain_rows (Scripts.image s fonts)
              /\ Scripts.cursor s fonts
                 = last (plain_rows (Scripts.image s fonts)) 0 + 20
              /\ Forall (eq 25) (gaps (table_rows (Scripts.image s fonts))))
    Statements.transcribed
  /\ (forall fonts, table_rows (Scripts.image Scripts.v2 fonts) = [320; 345])
  /\ (forall fonts,
         table_rows (Scripts.image Scripts.v3 fonts) = [340; 365; 390]).
Proof.
  split; [ | split; intros fonts; vm_compute; reflexivity ].
  cbv [Statements.transcribed].
  repeat (apply Forall_cons); [ .. | apply Forall_nil ];
    intros fonts; cbv zeta; cbn [fst snd]; conjs.
  all: first [ vm_compute; reflexivity
             | vm_compute; discriminate
             | vm_compute; repeat constructor ].
Qed.

End LayoutChecks.

(* ================================================================== *)
(** * Amounts *)
(* ================================================================== *)

Section Amounts.
Import PIL Prelude Layout.

Local Open Scope string_scope.

(** The decimal literals of the two-rate script denote the floats that
    [Py.lit] gives them. *)
Lemma literals_denote :
  Forall (fun q => Py.denotes (Py.lit q) q)
    [2.50; 1.89; 3.20; 4.99; 8.50; 0.14; 0.24]%Q.
Proof.
  repeat (apply Forall_cons); [ .. | apply Forall_nil ]; float_check.
Qed.

(** So do the amounts the theorems below compare with. *)
Lemma amounts_denote :
  Forall (fun c => Py.denotes (Py.of_cents c) (inject_Z c / 100))
    [759; 1349; 106; 865; 324; 1673; 1258; 176; 1434; 302; 1560; 14; 24].
Proof.
  repeat (apply Forall_cons); [ .. | apply Forall_nil ]; float_check.
Qed.

(** Every float the two-rate script computes is the float nearest to
    the exact sum or product of its operands. *)
Lemma operations_correctly_rounded :
  let v := Py.to_Q in
  Py.denotes V3.subtotal_14
    (v (Py.lit 2.50 + Py.lit 1.89)%py + v (Py.lit 3.20))
  /\ Py.denotes V3.subtotal_24 (v (Py.lit 4.99) + v (Py.lit 8.50))
  /\ Py.denotes V3.total_subtotal (v V3.subtotal_14 + v V3.subtotal_24)
  /\ Py.denotes V3.tax_14 (v V3.subtotal_14 * v (Py.lit 0.14))
  /\ Py.denotes V3.total_14 (v V3.subtotal_14 + v V3.tax_14)
  /\ Py.denotes V3.tax_24 (v V3.subtotal_24 * v (Py.lit 0.24))
  /\ Py.denotes V3.total_24 (v V3.subtotal_24 + v V3.tax_24)
  /\ Py.denotes V3.total_tax (v V3.tax_14 + v V3.tax_24)
  /\ Py.denotes V3.grand_total (v V3.total_subtotal + v V3.total_tax).
Proof.
  cbv zeta. conjs; float_check.
Qed.

(** The script keeps the products unrounded: the tax it holds in memory
    is not the float [1.06], only its rendering is. *)
Lemma tax_rounded_on_output_only :
  V3.tax_14 <> Py.round2 V3.tax_14
  /\ Py.format_2f V3.tax_14 = Py.format_2f (Py.round2 V3.tax_14).
Proof. split; [ vm_compute; discriminate | vm_compute; reflexivity ]. Qed.

(** C2: the amounts of the two-rate script.  The subtotals the script
    adds up are the floats 7.59 and 13.49; at 14% the tax is printed as
    1.06 and the total as 8.65, at 24% as 3.24 and 16.73; each printed
    amount is the cent nearest to the exact value of the float, and
    [round(_, 2)] of the products and sums gives the same amounts. *)
Theorem two_rate_amounts :
  (V3.subtotal_14 = Py.lit 7.59 /\ V3.subtotal_24 = Py.lit 13.49)
  /\ (Py.format_2f V3.tax_14 = "1.06"
      /\ Py.format_2f V3.total_14 = "8.65"
      /\ Py.format_2f V3.tax_24 = "3.24"
      /\ Py.format_2f V3.total_24 = "16.73")
  /\ (Py.nearest_cent V3.tax_14 106
      /\ Py.nearest_cent V3.total_14 865
      /\ Py.nearest_cent V3.tax_24 324
      /\ Py.nearest_cent V3.total_24 1673)
  /\ (Py.round2 (Py.lit 7.59 * Py.lit 0.14)%py = Py.lit 1.06
      /\ Py.round2 (Py.lit 7.59 + Py.lit 7.59 * Py.lit 0.14)%py = Py.lit 8.65
      /\ Py.round2 (Py.lit 7.59 + Py.lit 1.06)%py = Py.lit 8.65
      /\ Py.round2 (Py.lit 13.49 * Py.lit 0.24)%py = Py.lit 3.24
      /\ Py.round2 (Py.lit 13.49 + Py.lit 13.49 * Py.lit 0.24)%py
         = Py.lit 16.73
      /\ Py.round2 (Py.lit 13.49 + Py.lit 3.24)%py = Py.lit 16.73).
Proof.
  conjs; vm_compute; reflexivity.
Qed.

(** C1: every tax bucket is consistent.  The data rows of the tax
    tables show one bucket in the one-rate script and two in the
    two-rate script; in each the tax shown is the subtotal times the
    rate rounded to the cent and the total shown is subtotal plus tax
    rounded to the cent, and the floats the two-rate script holds round
    to the amounts its table shows. *)
Theorem tax_buckets_rounded (fonts : Fonts) :
  buckets (Scripts.image Scripts.v2 fonts)
  = [ {| rate := 14; tax := 176; subtotal := 1258; total := 1434 |} ]
  /\ buckets (Scripts.image Scripts.v3 fonts)
     = [ {| rate := 14; tax := 106; subtotal := 759; total := 865 |};
         {| rate := 24; tax := 324; subtotal := 1349; total := 1673 |} ]
  /\ Forall bucket_consistent
       (buckets (Scripts.image Scripts.v2 fonts)
          ++ buckets (Scripts.image Scripts.v3 fonts))%list
  /\ map (fun b => (Py.of_cents (tax b), Py.of_cents (total b)))
       (buckets (Scripts.image Scripts.v3 fonts))
     = [ (Py.round2 (V3.subtotal_14 * Py.lit 0.14)%py,
          Py.round2 (V3.subtotal_14 + V3.tax_14)%py);
         (Py.round2 (V3.subtotal_24 * Py.lit 0.24)%py,
          Py.round2 (V3.subtotal_24 + V3.tax_24)%py) ].
Proof.
  split; [ vm_compute; reflexivity | ].
  split; [ vm_compute; reflexivity | ].
  split; [ | vm_compute; reflexivity ].
  replace (buckets (Scripts.image Scripts.v2 fonts)
             ++ buckets (Scripts.image Scripts.v3 fonts))%list
    with [ {| rate := 14; tax := 176; subtotal := 1258; total := 1434 |};
           {| rate := 14; tax := 106; subtotal := 759; total := 865 |};
           {| rate := 24; tax := 324; subtotal := 1349; total := 1673 |} ]
    by (vm_compute; reflexivity).
  repeat (apply Forall_cons); [ .. | apply Forall_nil ];
    unfold bucket_consistent; cbn [rate tax subtotal total];
    (split; [ vm_compute; reflexivity | ]);
    (split; [ vm_compute; reflexivity | ]);
    (split; [ vm_compute; reflexivity | reflexivity ]).
Qed.

(** C3: the grand total of the two-rate script.  The float it holds is
    within 0.01 of the sum of the two bucket totals and of the sum of
    the subtotals plus the sum of the taxes, taken exactly or in floats;
    it is printed as 25.38, the subtotals as 21.08 and the tax as 4.30;
    and on the receipt the total is the sum of the bucket totals and the
    sum of subtotal and total tax. *)
Theorem grand_total_consistent (fonts : Fonts) :
  let exact := Py.to_Q in
  let img := Scripts.image Scripts.v3 fonts in
  ((Qabs (exact V3.grand_total
          - (exact V3.total_14 + exact V3.total_24)) < 0.01)%Q
   /\ (Qabs (exact V3.grand_total
             - exact (V3.total_14 + V3.total_24)%py) < 0.01)%Q
   /\ (Qabs (exact V3.grand_total
             - ((exact V3.subtotal_14 + exact V3.subtotal_24)
                + (exact V3.tax_14 + exact V3.tax_24))) < 0.01)%Q
   /\ V3.grand_total
      = ((V3.subtotal_14 + V3.subtotal_24)
         + (V3.tax_14 + V3.tax_24))%py)
  /\ (Py.format_2f V3.grand_total = "25.38"
      /\ Py.format_2f V3.total_subtotal = "21.08"
      /\ Py.format_2f V3.total_tax = "4.30"
      /\ Py.nearest_cent V3.grand_total 2538)
  /\ (labelled "TOTAL:" img = [2538]
      /\ labelled "Subtotal:" img = [2108]
      /\ labelled "Total Tax:" img = [430]
      /\ sum (labelled "TOTAL:" img) = sum (map total (buckets img))
      /\ sum (labelled "TOTAL:" img)
         = sum (map subtotal (buckets img)) + sum (map tax (buckets img))
      /\ sum (labelled "TOTAL:" img)
         = sum (labelled "Subtotal:" img) + sum (labelled "Total Tax:" img)).
Proof.
  cbv zeta. conjs; vm_compute; reflexivity.
Qed.

(** C9: the figures of the single-rate receipts agree.  In the Finnish,
    German and Swedish script the four item prices add up to the
    subtotal shown, 12.58; the row that names the rate 24% shows 3.02,
    which is 12.58 times 0.24 rounded to the cent; and the total shown,
    15.60, is subtotal plus that amount. *)
Theorem locale_figures_consistent :
  Forall (fun s => forall fonts,
              exists r,
                summary (Scripts.image s fonts) = Some r
                /\ (items r = [250; 189; 320; 499]
                    /\ shown_subtotal r = 1258
                    /\ vat_rate r = 24
                    /\ vat r = 302
                    /\ shown_total r = 1560)
                /\ shown_subtotal r = sum (items r)
                /\ 2 * Z.abs (shown_subtotal r * vat_rate r - 100 * vat r)
                   < 100
                /\ Py.round2 (Py.of_cents (shown_subtotal r)
                              * Py.of_cents (vat_rate r))%py
                   = Py.of_cents (vat r)
                /\ shown_total r = shown_subtotal r + vat r)
    Scripts.locale_scripts.
Proof.
  cbv [Scripts.locale_scripts].
  repeat (apply Forall_cons); [ .. | apply Forall_nil ]; intros fonts;
    eexists; (split; [ vm_compute; reflexivity | ]);
    cbn [items shown_subtotal vat_rate vat shown_total];
    conjs; vm_compute; reflexivity.
Qed.

End Amounts.


(* ================================================================== *)
(** * What drawing leaves alone *)
(* ================================================================== *)

Section Frame.
Import PIL Prelude Views.

Lemma extend_nil (img : Image) : extend img [] = img.
Proof. destruct img. unfold extend. simpl. rewrite app_nil_r. reflexivity. Qed.

Lemma extend_extend (img : Image) (ops ops' : list DrawOp) :
  extend (extend img ops) ops' = extend img (ops ++ ops').
Proof. unfold extend. simpl. rewrite app_assoc. reflexivity. Qed.

Lemma appends_ret {A} (a : A) : appends (ret a) a [].
Proof. intros img. unfold ret. rewrite extend_nil. reflexivity. Qed.

Lemma appends_emit (op : DrawOp) : appends (emit op) tt [op].
Proof. intros img. reflexivity. Qed.

Lemma appends_bind {A B} (c : Draw A) (k : A -> Draw B) a ops b ops' :
  appends c a ops -> appends (k a) b ops' ->
  appends (PIL.bind c k) b (ops ++ ops').
Proof.
  intros Hc Hk img. unfold PIL.bind.
  rewrite Hc, Hk, extend_extend. reflexivity.
Qed.

Lemma appends_draw_text text x y font :
  appends (draw_text text x y font) (y + 20) [Text (x, y) text TEXT_COLOR font].
Proof. intros img. reflexivity. Qed.

(** Walk down a body, one statement at a time. *)
Ltac appends_steps :=
  repeat first
    [ eapply appends_bind;
      [ first [ apply appends_draw_text | apply appends_emit ] | cbv beta ]
    | apply appends_ret ].

Lemma body_appends (s : Scripts.Script) (fonts : Fonts) :
  In s Scripts.all -> exists a ops, appends (snd s fonts) a ops.
Proof.
  intros Hs.
  cbv [Scripts.all Scripts.locale_scripts Scripts.table_scripts app] in Hs.
  repeat (destruct Hs as [<- | Hs]); [ .. | destruct Hs ];
    eexists; eexists;
    cbv [snd Scripts.fi Scripts.de Scripts.sv Scripts.v2 Scripts.v3
         Fi.body De.body Sv.body V2.body V3.body];
    cbv zeta; appends_steps.
Qed.

(** X1: a script only ever adds drawing calls.  Started on any image, of
    any size and background and with anything drawn on it already, each
    body returns the same cursor and leaves the image as it was with the
    same calls added at the end: it never erases, reorders or resizes,
    and never looks at the canvas. *)
Theorem scripts_only_append :
  Forall (fun s : Scripts.Script => forall fonts img,
              snd s fonts img
              = (Scripts.cursor s fonts,
                 extend img (drawn (Scripts.image s fonts))))
    Scripts.all.
Proof.
  apply Forall_forall. intros s Hs fonts img.
  destruct (body_appends s fonts Hs) as (a & ops & H).
  unfold Scripts.cursor, Scripts.image, Scripts.render.
  rewrite (H img), (H (PIL.new "RGB" (WIDTH, fst s) BG_COLOR)).
  reflexivity.
Qed.

Lemma shape_of_scripts :
  Forall (fun s => forall f1 f2,
              Scripts.cursor s f1 = Scripts.cursor s f2
              /\ map shape (drawn (Scripts.image s f1))
                 = map shape (drawn (Scripts.image s f2))
              /\ size (Scripts.image s f1) = size (Scripts.image s f2)
              /\ color (Scripts.image s f1) = color (Scripts.image s f2))
    Scripts.all.
Proof.
  each_script; intros f1 f2; conjs; vm_compute; reflexivity.
Qed.

(** X2: the fonts change nothing but the fonts.  Run on two machines,
    whatever their font providers do, a script returns the same cursor
    and images of the same size and background whose drawing calls are
    the same, at the same places with the same words and colours, up to
    the font of the text. *)
Theorem layout_ignores_fonts :
  Forall (fun s => forall tt1 tt2 : FontProvider,
              exists y img1 img2,
                Scripts.main s tt1 = Ok (y, img1)
                /\ Scripts.main s tt2 = Ok (y, img2)
                /\ map shape (drawn img1) = map shape (drawn img2)
                /\ size img1 = size img2
                /\ color img1 = color img2)
    Scripts.all.
Proof.
  apply Forall_forall. intros s Hs tt1 tt2.
  pose proof (proj1 (Forall_forall _ _) shape_of_scripts s Hs
                (resolved tt1) (resolved tt2)) as (Hy & Hops & Hsize & Hcol).
  exists (Scripts.cursor s (resolved tt1)),
         (Scripts.image s (resolved tt1)),
         (Scripts.image s (resolved tt2)).
  rewrite !main_render.
  split; [ unfold Scripts.cursor, Scripts.image;
           rewrite <- surjective_pairing; reflexivity | ].
  split; [ rewrite Hy; unfold Scripts.cursor, Scripts.image;
           rewrite <- surjective_pairing; reflexivity | ].
  auto.
Qed.

Lemma resolved_after_failure (truetype : FontProvider) size e :
  In size [16; 14; 12] -> truetype helvetica size = Raise e ->
  resolved truetype = all_default.
Proof.
  intros Hsize Hfail. unfold resolved.
  destruct Hsize as [<- | [<- | [<- | []]]]; rewrite Hfail.
  - reflexivity.
  - destruct (truetype helvetica 16); reflexivity.
  - destruct (truetype helvetica 16); [ | reflexivity ].
    destruct (truetype helvetica 14); reflexivity.
Qed.

(** X3: one font that fails to load puts all text in the default font.
    If the provider raises for any one of the three sizes, then in every
    script each text call, also those at the sizes that would have
    loaded, carries the built-in default font. *)
Theorem one_missing_font_defaults_all
  (truetype : FontProvider) (size : Z) (e : Exn)
  (Hsize : In size [16; 14; 12])
  (Hfail : truetype helvetica size = Raise e) :
  Forall (fun s => exists y img,
              Scripts.main s truetype = Ok (y, img)
              /\ fonts_used img <> []
              /\ Forall (eq DefaultFont) (fonts_used img))
    Scripts.all.
Proof.
  pose proof (resolved_after_failure truetype size e Hsize Hfail) as Hres.
  each_script;
    eexists; eexists; rewrite main_render, Hres;
    (split; [ apply f_equal, surjective_pairing | ]);
    (split; [ vm_compute; discriminate | vm_compute; repeat constructor ]).
Qed.

End Frame.

Lemma one_missing_font_defaults_all_witness :
  Forall (fun s => exists y img,
              Scripts.main s (Views.missing_size 12) = Ok (y, img)
              /\ Views.fonts_used img <> []
              /\ Forall (eq PIL.DefaultFont) (Views.fonts_used img))
    Scripts.all.
Proof.
  apply (one_missing_font_defaults_all (Views.missing_size 12) 12
           (Raised "OSError")).
  - simpl. auto.
  - reflexivity.
Defined.

(* ================================================================== *)
(** * Saving and reporting *)
(* ================================================================== *)

Section Paths.
Import Posix.

Local Open Scope string_scope.

Lemma has_sep_app (a b : string) :
  has_sep (a ++ b) = has_sep a || has_sep b.
Proof.
  induction a as [ | c a IH ]; simpl; [ reflexivity | ].
  rewrite IH, orb_assoc. reflexivity.
Qed.

Lemma append_assoc (a b c : string) : (a ++ b) ++ c = a ++ (b ++ c).
Proof.
  induction a as [ | x a IH ]; simpl; [ reflexivity | ].
  rewrite IH. reflexivity.
Qed.

Lemma ends_with_sep_has_sep (a : string) :
  ends_with_sep a = true -> has_sep a = true.
Proof.
  induction a as [ | c a IH ]; simpl; [ discriminate | ].
  destruct a as [ | c' a ].
  - intros ->. reflexivity.
  - intros H. rewrite (IH H). apply orb_true_r.
Qed.

Lemma tail_no_sep (n : string) :
  has_sep n = false -> tail_from_last_sep n = n.
Proof. destruct n; simpl; [ reflexivity | intros -> ; reflexivity ]. Qed.

Lemma head_no_sep (n : string) :
  has_sep n = false -> head_to_last_sep n = "".
Proof. destruct n; simpl; [ reflexivity | intros -> ; reflexivity ]. Qed.

(** Splitting [h ++ n] at its last separator gives back [h] and [n] when
    [h] is empty or ends with a separator and [n] has none. *)
Lemma split_at_last_sep (h n : string) :
  has_sep n = false ->
  h = "" \/ ends_with_sep h = true ->
  head_to_last_sep (h ++ n) = h /\ tail_from_last_sep (h ++ n) = n.
Proof.
  intros Hn. induction h as [ | c h IH ]; intros Hh.
  - simpl. split; [ apply head_no_sep | apply tail_no_sep ]; exact Hn.
  - destruct Hh as [Hh | Hh]; [ discriminate Hh | ].
    assert (Hsep : has_sep (String c h ++ n) = true).
    { rewrite has_sep_app, (ends_with_sep_has_sep _ Hh). reflexivity. }
    change (String c h ++ n) with (String c (h ++ n)) in *.
    cbn [head_to_last_sep tail_from_last_sep]. rewrite Hsep.
    assert (Hh' : h = "" \/ ends_with_sep h = true).
    { destruct h as [ | c' h ]; [ left; reflexivity | right; exact Hh ]. }
    destruct (IH Hh') as [IH1 IH2]. rewrite IH1, IH2. split; reflexivity.
Qed.

Lemma ends_with_sep_snoc (d : string) : ends_with_sep (d ++ "/") = true.
Proof.
  induction d as [ | c d IH ]; [ reflexivity | ].
  change (String c d ++ "/") with (String c (d ++ "/")).
  destruct d as [ | c' d ]; [ reflexivity | exact IH ].
Qed.

Lemma all_seps_rstrip (h : string) :
  all_seps h = true -> rstrip_sep h = "".
Proof. destruct h; simpl; [ reflexivity | intros ->; reflexivity ]. Qed.

Lemma all_seps_snoc (d : string) :
  all_seps (d ++ "/") = all_seps d.
Proof.
  induction d as [ | c d IH ]; simpl; [ reflexivity | ].
  rewrite IH. reflexivity.
Qed.

Lemma all_seps_ends (d : string) :
  all_seps d = true -> d = "" \/ ends_with_sep d = true.
Proof.
  induction d as [ | c d IH ]; [ left; reflexivity | ].
  simpl. intros H. apply andb_true_iff in H as [Hc Hd]. right.
  destruct d as [ | c' d ]; [ exact Hc | ].
  destruct (IH Hd) as [E | E]; [ discriminate E | exact E ].
Qed.

Lemma rstrip_snoc (d : string) :
  ends_with_sep d = false -> rstrip_sep (d ++ "/") = d.
Proof.
  induction d as [ | c d IH ]; intros Hd; [ reflexivity | ].
  change (String c d ++ "/") with (String c (d ++ "/")).
  cbn [rstrip_sep].
  assert (Hall : all_seps (String c (d ++ "/")) = false).
  { change (String c (d ++ "/")) with (String c d ++ "/").
    rewrite all_seps_snoc.
    destruct (all_seps (String c d)) eqn:E; [ | reflexivity ].
    destruct (all_seps_ends _ E) as [E' | E'];
      [ discriminate E' | rewrite E' in Hd; discriminate Hd ]. }
  rewrite Hall. f_equal. apply IH.
  destruct d as [ | c' d ]; [ reflexivity | exact Hd ].
Qed.

Lemma rstrip_no_trailing_sep (h : string) :
  all_seps h = false -> ends_with_sep (rstrip_sep h) = false.
Proof.
  induction h as [ | c h IH ]; intros Hh; [ discriminate Hh | ].
  cbn [rstrip_sep]. rewrite Hh.
  destruct (all_seps h) eqn:E.
  - rewrite (all_seps_rstrip _ E). simpl in *.
    rewrite E, andb_true_r in Hh. exact Hh.
  - specialize (IH eq_refl).
    destruct h as [ | c' h ]; [ discriminate E | ].
    cbn [rstrip_sep] in *. rewrite E in *. exact IH.
Qed.

(** The directory part that [dirname] returns is empty, made of
    separators only, or free of a trailing separator. *)
Lemma dirname_shape (f : string) :
  all_seps (dirname f) = true \/ ends_with_sep (dirname f) = false.
Proof.
  unfold dirname.
  destruct (all_seps (head_to_last_sep f)) eqn:E.
  - rewrite andb_false_r. left. exact E.
  - destruct (String.eqb (head_to_last_sep f) "") eqn:E0.
    + apply String.eqb_eq in E0. rewrite E0 in E. discriminate E.
    + simpl. right. apply rstrip_no_trailing_sep. exact E.
Qed.

Lemma no_sep_no_start (n : string) :
  has_sep n = false -> starts_with_sep n = false.
Proof.
  destruct n; simpl; [ reflexivity | ].
  intros H. apply orb_false_iff in H as [H _]. exact H.
Qed.

(** A file name without separator joined to the directory of a script
    lies in that directory, under that name. *)
Lemma join_dirname (f n : string) :
  has_sep n = false ->
  dirname (join (dirname f) n) = dirname f
  /\ basename (join (dirname f) n) = n.
Proof.
  intros Hn. unfold join. rewrite (no_sep_no_start _ Hn).
  set (d := dirname f).
  destruct (String.eqb d "") eqn:E0.
  - apply String.eqb_eq in E0. rewrite E0. simpl.
    unfold dirname, basename.
    rewrite (head_no_sep _ Hn), (tail_no_sep _ Hn). split; reflexivity.
  - destruct (ends_with_sep d) eqn:E1; cbn [orb].
    + destruct (split_at_last_sep d n Hn (or_intror E1)) as [H1 H2].
      unfold dirname at 1, basename. rewrite H1, H2.
      destruct (dirname_shape f) as [Hs | Hs]; fold d in Hs.
      * rewrite Hs, andb_false_r. split; reflexivity.
      * rewrite Hs in E1. discriminate E1.
    + assert (Hd : (d ++ "/" ++ n) = ((d ++ "/") ++ n)).
      { rewrite append_assoc. reflexivity. }
      rewrite Hd.
      destruct (split_at_last_sep (d ++ "/") n Hn
                  (or_intror (ends_with_sep_snoc d))) as [H1 H2].
      unfold dirname at 1, basename. rewrite H1, H2.
      assert (Hall : all_seps (d ++ "/") = false).
      { rewrite all_seps_snoc.
        destruct (all_seps d) eqn:E; [ | reflexivity ].
        destruct (all_seps_ends _ E) as [E' | E'].
        - rewrite E' in E0. discriminate E0.
        - rewrite E' in E1. discriminate E1. }
      assert (Hne : String.eqb (d ++ "/") "" = false).
      { destruct d; reflexivity. }
      rewrite Hall, Hne. simpl. rewrite (rstrip_snoc _ E1).
      split; reflexivity.
Qed.

End Paths.

Section Outcome.
Import PIL Posix Sys Whole.

Local Open Scope string_scope.


Lemma output_path_parts :
  Forall (fun p => forall env,
              output_path p env
              = join (dirname (script_file env)) (file_name p)
              /\ dirname (output_path p env) = dirname (script_file env)
              /\ basename (output_path p env) = file_name p)
    programs.
Proof.
  cbv [programs]. repeat (apply Forall_cons); [ .. | apply Forall_nil ];
    intros env; (split; [ reflexivity | ]);
    cbv [output_path file_name fi_output_path de_output_path
         sv_output_path v2_output_path v3_output_path];
    apply join_dirname; reflexivity.
Qed.

(** X5: the image is saved beside the script.  Wherever the script file
    lies and however its path is written (relative, absolute, with
    doubled separators, or a bare file name), the path the image is
    saved to has the directory of the script as its directory and the
    fixed file name of the script as its last component. *)
Theorem saved_beside_script :
  Forall (fun p => forall script truetype save_error,
              let env := {| script_file := script; truetype := truetype;
                            save_error := save_error |} in
              dirname (output_path p env) = dirname script
              /\ basename (output_path p env) = file_name p)
    programs.
Proof.
  apply Forall_forall. intros p Hp script tt se env.
  apply (proj1 (Forall_forall _ _) output_path_parts p Hp env).
Qed.

(** X6: no script overwrites the image of another.  The paths that two
    different scripts save to differ, wherever the two script files
    lie. *)
Theorem output_files_never_collide (env1 env2 : Env) :
  ForallOrdPairs (fun p q => output_path p env1 <> output_path q env2
                             /\ output_path q env1 <> output_path p env2)
    programs.
Proof.
  assert (Hname : forall p, In p programs -> forall env,
             basename (output_path p env) = file_name p).
  { intros p Hp env.
    apply (proj1 (Forall_forall _ _) output_path_parts p Hp env). }
  assert (Hdiff : forall p q, In p programs -> In q programs ->
             file_name p <> file_name q ->
             forall e e', output_path p e <> output_path q e').
  { intros p q Hp Hq Hpq e e' E. apply Hpq.
    rewrite <- (Hname p Hp e), <- (Hname q Hq e'), E. reflexivity. }
  cbv [programs] in *.
  repeat (apply FOP_cons; [ repeat (apply Forall_cons); try apply Forall_nil | ]);
    try apply FOP_nil.
  all: split; apply Hdiff; simpl; auto 10; cbn [file_name]; discriminate.
Qed.

End Outcome.

(* ================================================================== *)
(** * Tables, drawing order and figures *)
(* ================================================================== *)

Section Tables.
Import PIL Prelude Layout Views.

Local Open Scope string_scope.

(** Close a computed statement about concrete numbers. *)
Ltac by_computation :=
  vm_compute;
  repeat first
    [ reflexivity
    | apply conj
    | apply Forall_nil
    | apply Forall_cons
    | discriminate
    | intro ].

(** X7: the grid of a tax table fits its border.  In both table scripts
    there is one border; every vertical separator lies strictly between
    its left and right edge and runs from its top to its bottom; every
    horizontal separator runs from its left to its right edge, strictly
    between top and bottom, exactly 5 pixels above the cells of the row
    it opens; and every row has one cell per column, each starting
    exactly 10 pixels right of the left edge of its column. *)
Theorem table_grid_fits :
  Forall (fun s => forall fonts,
              let img := Scripts.image s fonts in
              exists x0 y0 x1 y1,
                borders img = [(x0, y0, x1, y1)]
                /\ vertical_lines img <> []
                /\ Forall (fun l => x0 < fst l < x1 /\ snd l = (y0, y1))
                     (vertical_lines img)
                /\ Forall (fun l => y0 < fst l < y1 /\ snd l = (x0, x1))
                     (horizontal_lines img)
                /\ map (fun l => fst l + 5) (horizontal_lines img)
                   = tl (table_rows img)
                /\ List.length (cell_rows img) = List.length (table_rows img)
                /\ Forall (fun row =>
                             map (fun x => x - 10) row
                             = x0 :: map fst (vertical_lines img))
                     (cell_rows img))
    Scripts.table_scripts.
Proof.
  cbv [Scripts.table_scripts].
  repeat (apply Forall_cons); [ .. | apply Forall_nil ];
    intros fonts; cbv zeta;
    eexists; eexists; eexists; eexists;
    (split; [ vm_compute; reflexivity | ]);
    conjs; by_computation.
Qed.

(** X8: no fill hides a text.  In every script no filled rectangle is
    drawn over a text drawn before it; in the table scripts the header
    fill is drawn first and the four column titles, and no other text,
    are drawn on top of it. *)
Theorem fills_never_hide_text :
  Forall (fun s => forall fonts,
              painted_over (drawn (Scripts.image s fonts)) = [])
    Scripts.all
  /\ Forall (fun s => forall fonts,
                 painted_on [] (drawn (Scripts.image s fonts))
                 = ["Tax rate"; "Tax"; "Subtotal"; "Total"])
       Scripts.table_scripts.
Proof.
  split; [ each_script | cbv [Scripts.table_scripts];
                         repeat (apply Forall_cons); [ .. | apply Forall_nil ] ];
    intros fonts; vm_compute; reflexivity.
Qed.

(** X9: the item lines and the subtotals agree in the table scripts.
    In the one-rate script the four item prices add up to the Subtotal
    row, which is the subtotal of the table, and the TOTAL row is the
    total of the table.  In the two-rate script the prices of the item
    lines are the literals the script adds up: the first three give the
    float [subtotal_14] and the 14% subtotal of the table, the last two
    give [subtotal_24] and the 24% subtotal, and all five add up to the
    Subtotal row. *)
Theorem items_match_subtotals (fonts : Fonts) :
  let one := Scripts.image Scripts.v2 fonts in
  let two := Scripts.image Scripts.v3 fonts in
  (labelled "Subtotal:" one = [sum (item_prices "Subtotal:" one)]
   /\ map subtotal (buckets one) = labelled "Subtotal:" one
   /\ map total (buckets one) = labelled "TOTAL:" one)
  /\ (exists a b c d e,
         item_prices "Subtotal:" two = [a; b; c; d; e]
         /\ V3.subtotal_14
            = (Py.of_cents a + Py.of_cents b + Py.of_cents c)%py
         /\ V3.subtotal_24 = (Py.of_cents d + Py.of_cents e)%py
         /\ map subtotal (buckets two) = [a + b + c; d + e]
         /\ labelled "Subtotal:" two = [a + b + c + d + e]).
Proof.
  cbv zeta. split.
  - conjs; vm_compute; reflexivity.
  - do 5 eexists. split; [ vm_compute; reflexivity | ].
    conjs; vm_compute; reflexivity.
Qed.

(** X10: the summary the two-rate script prints agrees with its image.
    Each of the two rate lines shows the subtotal, tax and total of the
    matching row of the table, and the last line shows the amounts of
    the Subtotal, Total Tax and TOTAL rows. *)
Theorem summary_matches_image (fonts : Fonts) :
  let img := Scripts.image Scripts.v3 fonts in
  map amounts_in Whole.v3_summary
  = (map (fun b => [subtotal b; tax b; total b]) (buckets img)
       ++ [ labelled "Subtotal:" img ++ labelled "Total Tax:" img
              ++ labelled "TOTAL:" img ])%list
  /\ map percent Whole.v3_summary
     = (map (fun b => Some (rate b)) (buckets img) ++ [None])%list.
Proof.
  cbv zeta. split; vm_compute; reflexivity.
Qed.

(** X11: the three locale receipts are one receipt in three languages.
    The Finnish, German and Swedish script draw on canvases of the same
    size and background, make the same calls at the same places in the
    same fonts and colours, return the same cursor and show the same
    figures; only the words differ. *)
Theorem locale_receipts_differ_in_words_only (fonts : Fonts) :
  Forall (fun s =>
            Scripts.cursor s fonts = Scripts.cursor Scripts.fi fonts
            /\ size (Scripts.image s fonts)
               = size (Scripts.image Scripts.fi fonts)
            /\ color (Scripts.image s fonts)
               = color (Scripts.image Scripts.fi fonts)
            /\ map wordless (drawn (Scripts.image s fonts))
               = map wordless (drawn (Scripts.image Scripts.fi fonts))
            /\ amounts (Scripts.image s fonts)
               = amounts (Scripts.image Scripts.fi fonts))
    Scripts.locale_scripts
  /\ map snd (texts (Scripts.image Scripts.de fonts))
     <> map snd (texts (Scripts.image Scripts.fi fonts))
  /\ map snd (texts (Scripts.image Scripts.sv fonts))
     <> map snd (texts (Scripts.image Scripts.de fonts)).
Proof.
  split; [ cbv [Scripts.locale_scripts];
           repeat (apply Forall_cons); [ .. | apply Forall_nil ];
           conjs; vm_compute; reflexivity | ].
  split; vm_compute; discriminate.
Qed.

End Tables.
